(** * Bandwagon views: collections of add-ons

    A shallow embedding of [apps/bandwagon/views.py]: the request handlers
    for listing, voting on, editing and deleting collections, together with
    the small part of the ORM and of the framework they lean on.

    Handlers are functions from a [World] (the relational tables plus the
    audit log) and a [Request] to a result and a new [World].  A result is
    either a response or a Python exception escaping the view. *)

From stdpp Require Import gmap strings list fin_maps sorting.
From Stdlib Require Import ZArith Ascii String.

Local Open Scope string_scope.
Local Open Scope Z_scope.

(** ** Data model *)

Module Model.

Record UserProfile := {
  user_id : Z;
  user_nickname : string;
  user_username : string;
  (* acl.action_allowed(request, 'Admin', '%') for this user *)
  user_is_admin : bool
}.

Record Collection := {
  id : Z;
  uuid : string;
  nickname : string;
  slug : string;
  author_id : option Z;
  listed : bool;
  type : Z;
  application_id : option Z;
  created : Z;
  rating : Z;
  weekly_subscribers : Z;
  (* ids of the users listed as contributors *)
  contributors : list Z
}.

Record Addon := {
  addon_id : Z;
  addon_name : string;
  weekly_downloads : Z
}.

Record CollectionAddon := {
  ca_collection_id : Z;
  ca_addon_id : Z;
  ca_comments : option string;
  ca_created : Z
}.

Record CollectionVote := {
  cv_id : Z;
  cv_collection_id : Z;
  cv_user_id : Z;
  cv_vote : Z
}.

(** The tables.  [vote_seq] is the next primary key the vote table hands
    out. *)
Record Db := {
  users : list UserProfile;
  collections : list Collection;
  addons : list Addon;
  collection_addons : list CollectionAddon;
  votes : list CollectionVote;
  vote_seq : Z
}.

(** Entries written through [log.info]. *)
Inductive LogEntry :=
| LogAltered (u : option UserProfile) (action : string) (addon cid : Z)
| LogEdited (u : option UserProfile) (cid : Z)
| LogAddedAddons (u : option UserProfile) (cid : Z)
| LogPrivacy (u : option UserProfile) (cid : Z)
| LogTryingToDelete (u : option UserProfile) (cid : Z)
| LogDeleted (u : option UserProfile) (cid : option Z).

Record World := { db : Db; log : list LogEntry }.

Definition log_info (e : LogEntry) (w : World) : World :=
  {| db := db w; log := log w ++ [e] |}.

Definition with_db (d : Db) (w : World) : World :=
  {| db := d; log := log w |}.

#[global] Instance UserProfile_eq_dec : EqDecision UserProfile.
Proof. solve_decision. Defined.
#[global] Instance Collection_eq_dec : EqDecision Collection.
Proof. solve_decision. Defined.
#[global] Instance CollectionVote_eq_dec : EqDecision CollectionVote.
Proof. solve_decision. Defined.

End Model.
Export Model.

(** ** Requests, responses, exceptions *)

Module Http.

Inductive Url :=
| Reverse (name : string) (args : list string)
| WithAddonId (base : Url) (addon : Z)
| UrlParams (base : Url) (key value : string)
| LoginUrl.

Record Request := {
  method : string;
  (* request.amo_user; request.user.is_authenticated() iff it is Some *)
  amo_user : option UserProfile;
  GET : gmap string string;
  POST : gmap string string;
  is_ajax : bool;
  (* request.APP.id *)
  APP_id : Z
}.

Definition is_authenticated (r : Request) : bool :=
  match amo_user r with Some _ => true | None => false end.

(** What a rendered template receives. *)
Inductive CtxVal :=
| CCollection (c : Collection)
| CUser (u : option UserProfile)
| CStr (s : string)
| CBool (b : bool)
| CForm (name : string)
| CNone
| CAddons (l : list Z)
| CNotes (m : gmap Z (option string)).

Inductive Response :=
| HttpResponse
| HttpResponseRedirect (u : Url)
| HttpResponseForbidden (msg : option string)
| HttpResponseBadRequest
| HttpResponseNotAllowed
| Render (template : string) (ctx : list (string * CtxVal)).

(** Exceptions that leave a view.  [Http404] is turned into a not-found
    response by the framework; the others are unhandled. *)
Inductive Exn :=
| Http404
| KeyError
| ValueError
| AttributeError
| StopIteration
| MultipleObjectsReturned.

Inductive Result (A : Type) :=
| Ok (a : A)
| Raise (e : Exn).
Arguments Ok {A} a.
Arguments Raise {A} e.

Definition bind {A B} (r : Result A) (k : A -> Result B) : Result B :=
  match r with Ok a => k a | Raise e => Raise e end.

Definition redirect (u : Url) : Response := HttpResponseRedirect u.

End Http.
Export Http.

Notation "'try!' x := r 'in' k" := (bind r (fun x => k))
  (at level 10, x name, r at level 100, k at level 200).

(** ** The pieces of Python and of the ORM the views use *)

Module Orm.

(** [d[k]] on a dictionary or a QueryDict. *)
Definition getitem {V} (d : gmap string V) (k : string) : Result V :=
  match d !! k with Some v => Ok v | None => Raise KeyError end.

(** Strings are unicode strings, held as their UTF-8 bytes.  [len] is
    the number of characters: every byte but the continuation bytes
    starts one (a character is a code point, as on a wide build of the
    interpreter). *)
Definition is_continuation (a : ascii) : bool :=
  let n := nat_of_ascii a in Nat.leb 128 n && Nat.ltb n 192.

Fixpoint len (s : string) : nat :=
  match s with
  | EmptyString => 0%nat
  | String a s' => if is_continuation a then len s' else S (len s')
  end.

Definition bytes_of (s : string) : list Z :=
  map (fun a => Z.of_nat (nat_of_ascii a)) (list_ascii_of_string s).

Definition continues (b : Z) : bool := (128 <=? b) && (b <? 192).

(** The characters of a string; [None] when the bytes are not UTF-8. *)
Fixpoint code_points (bs : list Z) : option (list Z) :=
  match bs with
  | [] => Some []
  | b0 :: r0 =>
      if b0 <? 128 then cons b0 <$> code_points r0
      else if b0 <? 194 then None
      else if b0 <? 224 then
        match r0 with
        | b1 :: r1 =>
            if continues b1
            then cons ((b0 - 192) * 64 + (b1 - 128)) <$> code_points r1
            else None
        | _ => None
        end
      else if b0 <? 240 then
        match r0 with
        | b1 :: b2 :: r2 =>
            if continues b1 && continues b2
            then cons ((b0 - 224) * 4096 + (b1 - 128) * 64 + (b2 - 128))
                   <$> code_points r2
            else None
        | _ => None
        end
      else if b0 <? 245 then
        match r0 with
        | b1 :: b2 :: b3 :: r3 =>
            if continues b1 && continues b2 && continues b3
            then cons ((b0 - 240) * 262144 + (b1 - 128) * 4096
                       + (b2 - 128) * 64 + (b3 - 128))
                   <$> code_points r3
            else None
        | _ => None
        end
      else None
  end.

(** [int(s)] on a unicode string.  Each character is first read as white
    space, as a decimal digit, or as itself; what is left must be white
    space, an optional sign, at least one digit, white space.  Anything
    else raises [ValueError].

    [is_space] is the interpreter's white space for unicode strings;
    [decimal_zeros] are the digits zero of the decimal digit ranges of the
    Basic Multilingual Plane in the interpreter's Unicode tables, each the
    first of ten consecutive digits. *)
Definition is_space (c : Z) : bool :=
  ((9 <=? c) && (c <=? 13)) || ((28 <=? c) && (c <=? 32))
  || (c =? 0x85) || (c =? 0xA0) || (c =? 0x1680)
  || ((0x2000 <=? c) && (c <=? 0x200A))
  || (c =? 0x2028) || (c =? 0x2029) || (c =? 0x202F) || (c =? 0x205F)
  || (c =? 0x3000).

Definition decimal_zeros : list Z :=
  [0x30; 0x660; 0x6F0; 0x7C0; 0x966; 0x9E6; 0xA66; 0xAE6; 0xB66; 0xBE6;
   0xC66; 0xCE6; 0xD66; 0xE50; 0xED0; 0xF20; 0x1040; 0x1090; 0x17E0; 0x1810;
   0x1946; 0x19D0; 0x1B50; 0x1BB0; 0x1C40; 0x1C50; 0xA620; 0xA8D0; 0xA900;
   0xAA50; 0xFF10].

Definition digit_of (c : Z) : option Z :=
  (fun zero => c - zero)
    <$> List.find (fun zero => (zero <=? c) && (c <? zero + 10)) decimal_zeros.

Fixpoint digits (acc : Z) (l : list Z) : option Z :=
  match l with
  | [] => Some acc
  | c :: l' =>
      match digit_of c with
      | Some d => digits (10 * acc + d) l'
      | None => None
      end
  end.

Fixpoint lstrip (l : list Z) : list Z :=
  match l with
  | c :: l' => if is_space c then lstrip l' else l
  | [] => []
  end.

Definition strip (l : list Z) : list Z :=
  rev (lstrip (rev (lstrip l))).

Definition unsigned (ds : list Z) : Result Z :=
  match ds with
  | [] => Raise ValueError
  | _ => match digits 0 ds with Some n => Ok n | None => Raise ValueError end
  end.

Definition python_int (s : string) : Result Z :=
  match code_points (bytes_of s) with
  | None => Raise ValueError
  | Some cs =>
      match strip cs with
      | [] => Raise ValueError
      | c :: ds =>
          if c =? 45 then try! n := unsigned ds in Ok (- n)
          else if c =? 43 then unsigned ds
          else unsigned (c :: ds)
      end
  end.

(** [Manager.get] with keyword filters: the single row matching, [DoesNotExist] (here
    [None]) when there is none, [MultipleObjectsReturned] otherwise. *)
Definition get {A} (P : A -> bool) (rows : list A) : Result (option A) :=
  match List.filter P rows with
  | [] => Ok None
  | [x] => Ok (Some x)
  | _ => Raise MultipleObjectsReturned
  end.

Definition get_object_or_404 {A} (P : A -> bool) (rows : list A) : Result A :=
  try! o := get P rows in
  match o with Some x => Ok x | None => Raise Http404 end.

(** [qs.order_by('-field')] and [qs.order_by('field')]: the rows of the
    query in descending, respectively ascending, order of the field. *)
Definition desc_by {A} (key : A -> Z) : relation A := fun x y => key y <= key x.
Definition asc_by {A} (key : A -> Z) : relation A := fun x y => key x <= key y.

#[global] Instance desc_by_dec {A} (key : A -> Z) x y : Decision (desc_by key x y).
Proof. unfold desc_by. apply _. Defined.
#[global] Instance asc_by_dec {A} (key : A -> Z) x y : Decision (asc_by key x y).
Proof. unfold asc_by. apply _. Defined.

Definition order_by_desc {A} (key : A -> Z) (qs : list A) : list A :=
  merge_sort (desc_by key) qs.

Definition order_by_asc {A} (key : A -> Z) (qs : list A) : list A :=
  merge_sort (asc_by key) qs.

End Orm.
Export Orm.

(** ** Collaborators outside this module

    Model methods, constants and forms the views call but that live in
    other modules of the application. *)

Class Site := {
  (* Collection.get_url_path *)
  get_url_path : Collection -> Url;
  (* SPECIAL_SLUGS.values() *)
  SPECIAL_SLUGS_values : list string;
  (* getattr(user, slug + '_collection')() *)
  special_collection : Db -> UserProfile -> string -> Collection;
  (* amo.COLLECTION_FEATURED *)
  COLLECTION_FEATURED : Z;
  (* the require_owner default of acl.check_collection_ownership *)
  require_owner_default : bool;
  (* Collection.add_addon and Collection.remove_addon *)
  add_addon : Db -> Collection -> Addon -> Db;
  remove_addon : Db -> Collection -> Addon -> Db
}.

Class Forms := {
  CollectionForm_is_valid : Db -> Request -> bool;
  CollectionForm_save : Db -> Request -> Collection -> Db * Collection;
  AddonsForm_is_valid : Db -> Request -> bool;
  AddonsForm_save : Db -> Request -> Collection -> Db;
  AdminForm_is_valid : Db -> Request -> bool;
  AdminForm_save : Db -> Request -> Collection -> Db;
  ContributorsForm_is_valid : Db -> Request -> bool;
  ContributorsForm_save : Db -> Request -> Collection -> Db;
  ContributorsForm_new_owner : Request -> bool
}.

(** ** Access guard *)

Module acl.

Definition action_allowed_admin (request : Request) : bool :=
  match amo_user request with
  | Some u => user_is_admin u
  | None => false
  end.

(** Modelled from the spec: [acl.check_collection_ownership] is imported
    from [access.acl], which is not part of this module.  Ownership is
    satisfied by the creating identity or, when [require_owner] is false,
    by any listed contributor; an administrative capability bypasses the
    ownership check entirely. *)
Definition check_collection_ownership
    (request : Request) (collection : Collection) (require_owner : bool) : bool :=
  match amo_user request with
  | None => false
  | Some u =>
      user_is_admin u
      || bool_decide (author_id collection = Some (user_id u))
      || (negb require_owner
          && bool_decide (user_id u ∈ contributors collection))
  end.

End acl.

(** ** Views *)

Section Views.
Context `{Site} `{Forms}.

Definition View := World -> Request -> Result Response * World.

(** Modelled from the spec: [login_required] and [post_required] are
    imported from [amo.decorators], which is not part of this module.
    They are guards evaluated in order, each short-circuiting on failure:
    an anonymous request is sent to the login page, and only a POST gets
    through [post_required]. *)
Definition login_required (f : View) : View :=
  fun w request =>
    if is_authenticated request then f w request
    else (Ok (redirect LoginUrl), w).

Definition post_required (f : View) : View :=
  fun w request =>
    if bool_decide (method request = "POST") then f w request
    else (Ok HttpResponseNotAllowed, w).

(** [author__nickname=username]: the collection's author row carries that
    nickname. *)
Definition author_nickname_is (d : Db) (username : string) (c : Collection) : bool :=
  existsb (fun u => bool_decide (author_id c = Some (user_id u))
                    && bool_decide (user_nickname u = username)) (users d).

Definition by_author_and_slug (d : Db) (username slug_ : string) (c : Collection) : bool :=
  author_nickname_is d username c && bool_decide (slug c = slug_).

Definition get_collection (w : World) (request : Request) (username slug_ : string)
  : Result Collection :=
  match amo_user request with
  | Some u =>
      if bool_decide (slug_ ∈ SPECIAL_SLUGS_values)
         && bool_decide (user_nickname u = username)
      then Ok (special_collection (db w) u slug_)
      else get_object_or_404 (by_author_and_slug (db w) username slug_)
                             (collections (db w))
  | None =>
      get_object_or_404 (by_author_and_slug (db w) username slug_)
                        (collections (db w))
  end.

Definition not_the_collection : string :=
  "This is not the collection you are looking for.".

Definition owner_required (require_owner : bool)
    (func : Collection -> string -> string -> View)
    (username slug_ : string) : View :=
  fun w request =>
    match get_collection w request username slug_ with
    | Raise e => (Raise e, w)
    | Ok collection =>
        if acl.check_collection_ownership request collection require_owner
        then func collection username slug_ w request
        else (Ok (HttpResponseForbidden (Some not_the_collection)), w)
    end.

(** *** Legacy redirect *)

Inductive LegacyKey := by_uuid | by_nickname.

Definition legacy_key (uuid_ : string) : LegacyKey :=
  if Nat.eqb (len uuid_) 36 then by_uuid else by_nickname.

Definition legacy_lookup (k : LegacyKey) (value : string) (c : Collection) : bool :=
  match k with
  | by_uuid => bool_decide (uuid c = value)
  | by_nickname => bool_decide (nickname c = value)
  end.

Definition legacy_redirect (uuid_ : string) : View :=
  fun w request =>
    let key := legacy_key uuid_ in
    match get_object_or_404 (legacy_lookup key uuid_) (collections (db w)) with
    | Ok c => (Ok (redirect (get_url_path c)), w)
    | Raise e => (Raise e, w)
    end.

(** *** Listing filters *)

(** Modelled from the spec: [BaseFilter] is imported from [addons.views],
    which is not part of this module.  The chosen field is the value of
    the request parameter [key] when it is one of the declared options,
    and the declared default otherwise; the filter's query set is
    [filter] applied to the chosen field. *)
Definition options (opts : list string) (request : Request) (key default : string)
  : string :=
  match GET request !! key with
  | Some v => if bool_decide (v ∈ opts) then v else default
  | None => default
  end.

Record BaseFilter (Q : Type) := {
  field : string;
  qs : Q
}.
Arguments field {Q} _.
Arguments qs {Q} _.

Definition make_filter {Q} (opts : list string) (filter : string -> Q)
    (request : Request) (key default : string) : BaseFilter Q :=
  let opt := options opts request key default in
  {| field := opt; qs := filter opt |}.

Definition CollectionFilter_opts : list string :=
  ["featured"; "popular"; "rating"; "created"].

Definition CollectionFilter_filter (base_queryset : list Collection) (field : string)
  : list Collection :=
  let qs := base_queryset in
  if bool_decide (field = "featured") then
    List.filter (fun c => bool_decide (type c = COLLECTION_FEATURED)) qs
  else if bool_decide (field = "followers") then
    order_by_desc weekly_subscribers qs
  else if bool_decide (field = "rating") then
    order_by_desc rating qs
  else
    order_by_desc created qs.

Definition CollectionFilter (request : Request) (base : list Collection)
    (key default : string) : BaseFilter (list Collection) :=
  make_filter CollectionFilter_opts (CollectionFilter_filter base) request key default.

(** The query set [collection_listing] paginates: the base set (the listed
    collections when none is given) restricted to the request's
    application or to no application, through the filter on [sort]. *)
Definition collection_listing_filter (w : World) (request : Request)
    (base : option (list Collection)) : BaseFilter (list Collection) :=
  let base :=
    match base with
    | None => List.filter listed (collections (db w))
    | Some b => b
    end in
  let app c := bool_decide (application_id c = Some (APP_id request))
               || bool_decide (application_id c = None) in
  let base := List.filter app base in
  CollectionFilter request base "sort" "popular".

(** A row of the add-on query of a collection: the add-on joined with its
    membership row. *)
Definition AddonRow : Type := Addon * CollectionAddon.

Definition CollectionAddonFilter_opts : list string :=
  ["added"; "popular"; "name"].

(** [order_by_translation] comes from [translations.query]; it is taken as
    a parameter [by_name]. *)
Definition CollectionAddonFilter_filter
    (by_name : list AddonRow -> list AddonRow)
    (base_queryset : list AddonRow) (field : string) : option (list AddonRow) :=
  if bool_decide (field = "added") then
    Some (order_by_asc (fun r => ca_created r.2) base_queryset)
  else if bool_decide (field = "name") then
    Some (by_name base_queryset)
  else if bool_decide (field = "popular") then
    Some (order_by_desc (fun r => weekly_downloads r.1) base_queryset)
  else None.

Definition CollectionAddonFilter (by_name : list AddonRow -> list AddonRow)
    (request : Request) (base : list AddonRow) (key default : string)
  : BaseFilter (option (list AddonRow)) :=
  make_filter CollectionAddonFilter_opts
              (CollectionAddonFilter_filter by_name base) request key default.

(** *** Notes *)

(** A generator: not started (its body still has to run against the
    tables) or running with the values it has left to yield. *)
Inductive Generator (A : Type) :=
| Fresh (body : Db -> list A)
| Running (rest : list A).
Arguments Fresh {A} body.
Arguments Running {A} rest.

Definition next {A} (g : Generator A) (d : Db) : Result A * Generator A :=
  let ys := match g with Fresh body => body d | Running rest => rest end in
  match ys with
  | [] => (Raise StopIteration, Running [])
  | y :: rest => (Ok y, Running rest)
  end.

Definition notes_query (d : Db) (collection : Collection) : list CollectionAddon :=
  List.filter (fun ca => bool_decide (ca_collection_id ca = id collection)
                         && bool_decide (ca_comments ca ≠ None))
              (collection_addons d).

Definition collect_notes (notes : list CollectionAddon) : gmap Z (option string) :=
  foldl (fun rv note => <[ca_addon_id note := ca_comments note]> rv) ∅ notes.

Definition get_notes (collection : Collection) : Generator (gmap Z (option string)) :=
  Fresh (fun d => [collect_notes (notes_query d collection)]).

(** *** Voting *)

Definition vote_of_direction (direction : string) : Result Z :=
  getitem (<["up" := 1]> (<["down" := -1]> ∅)) direction.

Definition set_votes (vs : list CollectionVote) (seq : Z) (d : Db) : Db :=
  {| users := users d; collections := collections d; addons := addons d;
     collection_addons := collection_addons d;
     votes := vs; vote_seq := seq |}.

Definition vote_matches (cid uid : Z) (v : CollectionVote) : bool :=
  bool_decide (cv_collection_id v = cid) && bool_decide (cv_user_id v = uid).

(** The row [get_or_create] inserts; the table assigns its key. *)
Definition new_vote (d : Db) (c : Collection) (u : UserProfile) (vote : Z)
  : CollectionVote :=
  {| cv_id := vote_seq d; cv_collection_id := id c;
     cv_user_id := user_id u; cv_vote := vote |}.

(** [CollectionVote.objects.get_or_create(collection=c, user=u,
    defaults={'vote': vote})] *)
Definition get_or_create_vote (d : Db) (c : Collection) (u : UserProfile) (vote : Z)
  : Result (CollectionVote * bool * Db) :=
  try! o := get (vote_matches (id c) (user_id u)) (votes d) in
  match o with
  | Some cv => Ok (cv, false, d)
  | None =>
      let cv := new_vote d c u vote in
      Ok (cv, true, set_votes (votes d ++ [cv]) (vote_seq d + 1) d)
  end.

(** [cv.delete()] *)
Definition delete_vote (cv : CollectionVote) (d : Db) : Db :=
  set_votes (List.filter (fun v => negb (bool_decide (cv_id v = cv_id cv))) (votes d))
            (vote_seq d) d.

(** [cv.save()] on a row that has a primary key: update it in place, or
    insert it when the key is gone. *)
Definition save_vote (cv : CollectionVote) (d : Db) : Db :=
  if existsb (fun v => bool_decide (cv_id v = cv_id cv)) (votes d) then
    set_votes (map (fun v => if bool_decide (cv_id v = cv_id cv) then cv else v)
                   (votes d)) (vote_seq d) d
  else set_votes (votes d ++ [cv]) (vote_seq d) d.

Definition with_vote (vote : Z) (cv : CollectionVote) : CollectionVote :=
  {| cv_id := cv_id cv; cv_collection_id := cv_collection_id cv;
     cv_user_id := cv_user_id cv; cv_vote := vote |}.

Definition collection_vote_body (username slug_ direction : string) : View :=
  fun w request =>
    match get_collection w request username slug_ with
    | Raise e => (Raise e, w)
    | Ok c =>
        if negb (bool_decide (method request = "POST")) then
          (Ok (redirect (get_url_path c)), w)
        else
          match vote_of_direction direction with
          | Raise e => (Raise e, w)
          | Ok vote =>
              match amo_user request with
              | None => (Raise AttributeError, w) (* not behind login_required *)
              | Some u =>
                  match get_or_create_vote (db w) c u vote with
                  | Raise e => (Raise e, w)
                  | Ok (cv, new, d) =>
                      let d :=
                        if negb new then
                          if bool_decide (cv_vote cv = vote) then delete_vote cv d
                          else save_vote (with_vote vote cv) d
                        else d in
                      if is_ajax request then (Ok HttpResponse, with_db d w)
                      else (Ok (redirect (get_url_path c)), with_db d w)
                  end
              end
          end
    end.

Definition collection_vote (username slug_ direction : string) : View :=
  login_required (collection_vote_body username slug_ direction).

(** *** Adding and removing add-ons *)

(** [get_object_or_404(manager, pk=raw)]: the key is converted with
    [int] before the lookup. *)
Definition get_by_pk {A} (pk_of : A -> Z) (rows : list A) (raw : string) : Result A :=
  try! pk := python_int raw in
  get_object_or_404 (fun a => bool_decide (pk_of a = pk)) rows.

(** A request body whose [field] is missing or is not an integer. *)
Definition bad_identifier (request : Request) (field : string) : Prop :=
  POST request !! field = None \/
  exists raw, POST request !! field = Some raw /\ python_int raw = Raise ValueError.

(** [getattr(collection, action + '_addon')] *)
Definition addon_method (action : string)
  : Result (Db -> Collection -> Addon -> Db) :=
  if bool_decide (action = "add") then Ok add_addon
  else if bool_decide (action = "remove") then Ok remove_addon
  else Raise AttributeError.

Definition change_addon (collection : Collection) (action : string) : View :=
  fun w request =>
    if negb (acl.check_collection_ownership request collection require_owner_default)
    then (Ok (HttpResponseForbidden None), w)
    else
      match (try! raw := getitem (POST request) "addon_id" in
             get_by_pk addon_id (addons (db w)) raw) with
      | Raise ValueError | Raise KeyError => (Ok HttpResponseBadRequest, w)
      | Raise e => (Raise e, w)
      | Ok addon =>
          match addon_method action with
          | Raise e => (Raise e, w)
          | Ok m =>
              let w := with_db (m (db w) collection addon) w in
              let w := log_info (LogAltered (amo_user request) action
                                            (addon_id addon) (id collection)) w in
              let url :=
                if is_ajax request
                then WithAddonId (Reverse "collections.ajax_list" []) (addon_id addon)
                else get_url_path collection in
              (Ok (redirect url), w)
          end
      end.

Definition collection_alter (username slug_ action : string) : View :=
  login_required (post_required (fun w request =>
    match get_collection w request username slug_ with
    | Raise e => (Raise e, w)
    | Ok c => change_addon c action w request
    end)).

Definition ajax_collection_alter (action : string) : View :=
  login_required (post_required (fun w request =>
    match (try! raw := getitem (POST request) "id" in
           get_by_pk id (collections (db w)) raw) with
    | Raise ValueError | Raise KeyError => (Ok HttpResponseBadRequest, w)
    | Raise e => (Raise e, w)
    | Ok c => change_addon c action w request
    end)).

(** *** Editing *)

Definition set_collections (cs : list Collection) (d : Db) : Db :=
  {| users := users d; collections := cs; addons := addons d;
     collection_addons := collection_addons d;
     votes := votes d; vote_seq := vote_seq d |}.

Definition memberships (d : Db) (collection : Collection) : list CollectionAddon :=
  List.filter (fun ca => bool_decide (ca_collection_id ca = id collection))
              (collection_addons d).

Definition edit_body (collection : Collection) (username slug_ : string) : View :=
  fun w request =>
    let is_admin := acl.action_allowed_admin request in
    let render (form : string) :=
      let addons := map ca_addon_id (memberships (db w) collection) in
      match (next (get_notes collection) (db w)).1 with
      | Raise e => (Raise e, w)
      | Ok comments =>
          let admin_form := if is_admin then CForm "AdminForm" else CNone in
          (Ok (Render "bandwagon/edit.html"
                 [("collection", CCollection collection); ("form", CForm form);
                  ("user", CUser (amo_user request));
                  ("username", CStr username); ("slug", CStr slug_);
                  ("is_admin", CBool is_admin); ("admin_form", admin_form);
                  ("addons", CAddons addons); ("comments", CNotes comments)]), w)
      end in
    if bool_decide (method request = "POST") then
      if CollectionForm_is_valid (db w) request then
        let '(d, collection) := CollectionForm_save (db w) request collection in
        let w := log_info (LogEdited (amo_user request) (id collection)) (with_db d w) in
        (Ok (HttpResponseRedirect (get_url_path collection)), w)
      else render "CollectionForm(request.POST)"
    else render "CollectionForm(instance)".

Definition edit (username slug_ : string) : View :=
  login_required (owner_required true edit_body username slug_).

Definition edit_addons_body (collection : Collection) (username slug_ : string) : View :=
  fun w request =>
    let render :=
      let collection_addons := memberships (db w) collection in
      let comments :=
        foldl (fun m ca => <[ca_addon_id ca := ca_comments ca]> m) ∅ collection_addons in
      let addons := map ca_addon_id collection_addons in
      (Ok (Render "bandwagon/edit.html"
             [("collection", CCollection collection);
              ("username", CStr username); ("slug", CStr slug_);
              ("addons", CAddons addons); ("comments", CNotes comments);
              ("form", CForm "CollectionForm(instance)")]), w) in
    if bool_decide (method request = "POST") then
      if AddonsForm_is_valid (db w) request then
        let w := with_db (AddonsForm_save (db w) request collection) w in
        let w := log_info (LogAddedAddons (amo_user request) (id collection)) w in
        (Ok (HttpResponseRedirect (get_url_path collection)), w)
      else render
    else render.

Definition edit_addons (username slug_ : string) : View :=
  login_required (owner_required false edit_addons_body username slug_).

Definition edit_contributors_body (collection : Collection) (username slug_ : string)
  : View :=
  fun w request =>
    let is_admin := acl.action_allowed_admin request in
    let data :=
      ([("collection", CCollection collection);
        ("username", CStr username); ("slug", CStr slug_);
        ("is_admin", CBool is_admin)]
       ++ (if is_admin then [("admin_form", CForm "AdminForm")] else []))%list in
    let render w :=
      (Ok (Render "bandwagon/edit.html"
             (data ++ [("form", CForm "CollectionForm(instance)")])%list), w) in
    if bool_decide (method request = "POST") then
      let w :=
        if is_admin && AdminForm_is_valid (db w) request
        then with_db (AdminForm_save (db w) request collection) w
        else w in
      if ContributorsForm_is_valid (db w) request then
        let w := with_db (ContributorsForm_save (db w) request collection) w in
        if ContributorsForm_new_owner request then
          (Ok (HttpResponseRedirect (get_url_path collection)), w)
        else
          (Ok (HttpResponseRedirect
                 (Reverse "collections.edit_contributors" [username; slug_])), w)
      else render w
    else render w.

Definition edit_contributors (username slug_ : string) : View :=
  login_required (owner_required true edit_contributors_body username slug_).

Definition with_listed (b : bool) (c : Collection) : Collection :=
  {| id := id c; uuid := uuid c; nickname := nickname c; slug := slug c;
     author_id := author_id c; listed := b; type := type c;
     application_id := application_id c; created := created c;
     rating := rating c; weekly_subscribers := weekly_subscribers c;
     contributors := contributors c |}.

(** [collection.save()]: the row with this primary key is replaced. *)
Definition save_collection (c : Collection) (d : Db) : Db :=
  set_collections
    (map (fun x => if bool_decide (id x = id c) then c else x) (collections d)) d.

Definition edit_privacy_body (collection : Collection) (username slug_ : string) : View :=
  fun w request =>
    let collection := with_listed (negb (listed collection)) collection in
    let w := with_db (save_collection collection (db w)) w in
    let w := log_info (LogPrivacy (amo_user request) (id collection)) w in
    (Ok (redirect (get_url_path collection)), w).

Definition edit_privacy (username slug_ : string) : View :=
  login_required
    (owner_required true
       (fun c u s => post_required (edit_privacy_body c u s)) username slug_).

(** *** Deleting *)

(** [collection.delete()]: the row goes, and with it the membership and
    vote rows that point to it. *)
Definition delete_collection (c : Collection) (d : Db) : Db :=
  {| users := users d;
     collections :=
       List.filter (fun x => negb (bool_decide (id x = id c))) (collections d);
     addons := addons d;
     collection_addons :=
       List.filter (fun ca => negb (bool_decide (ca_collection_id ca = id c)))
                   (collection_addons d);
     votes :=
       List.filter (fun v => negb (bool_decide (cv_collection_id v = id c))) (votes d);
     vote_seq := vote_seq d |}.

Definition delete_body (username slug_ : string) : View :=
  fun w request =>
    match get_object_or_404 (by_author_and_slug (db w) username slug_)
                            (collections (db w)) with
    | Raise e => (Raise e, w)
    | Ok collection =>
        if negb (acl.check_collection_ownership request collection true) then
          let w := log_info (LogTryingToDelete (amo_user request) (id collection)) w in
          (Ok (HttpResponseForbidden (Some not_the_collection)), w)
        else if bool_decide (method request = "POST") then
          match getitem (POST request) "sure" with
          | Raise e => (Raise e, w)
          | Ok sure =>
              if bool_decide (sure = "1") then
                let w := with_db (delete_collection collection (db w)) w in
                (* the deleted instance no longer has a key *)
                let w := log_info (LogDeleted (amo_user request) None) w in
                let url := Reverse "collections.user" [username] in
                (Ok (HttpResponseRedirect url), w)
              else (Ok (HttpResponseRedirect (get_url_path collection)), w)
          end
        else
          (Ok (Render "bandwagon/delete.html"
                 [("collection", CCollection collection);
                  ("username", CStr username); ("slug", CStr slug_)]), w)
    end.

Definition delete (username slug_ : string) : View :=
  login_required (delete_body username slug_).

End Views.

Arguments field {Q} _.
Arguments qs {Q} _.
Arguments Fresh {A} body.
Arguments Running {A} rest.

(** ** Vote operations as a state machine *)

Section VoteMachine.
Context `{Site}.

(** The vote rows of one (collection, user) pair. *)
Definition vget (d : Db) (cid uid : Z) : list CollectionVote :=
  List.filter (vote_matches cid uid) (votes d).

(** Primary keys of the vote table are distinct and below the next key. *)
Definition votes_wf (d : Db) : Prop :=
  NoDup (map cv_id (votes d)) /\ Forall (fun v => cv_id v < vote_seq d) (votes d).

Definition at_most_one_vote (d : Db) : Prop :=
  forall cid uid, (List.length (vget d cid uid) <= 1)%nat.

Definition exactly_one_vote (d : Db) : Prop :=
  forall cid uid, List.length (vget d cid uid) = 1%nat.

(** What a vote that went through answers. *)
Definition vote_response (request : Request) (c : Collection) : Response :=
  if is_ajax request then HttpResponse else redirect (get_url_path c).

(** One call of [collection_vote]. *)
Record VoteOp := {
  op_request : Request;
  op_username : string;
  op_slug : string;
  op_direction : string
}.

Definition step (w : World) (op : VoteOp) : World :=
  (collection_vote (op_username op) (op_slug op) (op_direction op) w (op_request op)).2.

Definition run (ops : list VoteOp) (w : World) : World := foldl step w ops.

(** The action a call stands for, if it gets as far as the vote table: the
    collection it resolves, the voter and the value of the direction. *)
Definition action_of (w : World) (op : VoteOp) : option (Collection * UserProfile * Z) :=
  match amo_user (op_request op),
        get_collection w (op_request op) (op_username op) (op_slug op),
        vote_of_direction (op_direction op) with
  | Some u, Ok c, Ok vote =>
      if bool_decide (method (op_request op) = "POST") then Some (c, u, vote) else None
  | _, _, _ => None
  end.

(** An action cancels when the pair's row already carries its value. *)
Definition cancels (d : Db) (cid uid vote : Z) : bool :=
  existsb (fun v => bool_decide (cv_vote v = vote)) (vget d cid uid).

(** The actions of one pair along a run, oldest first, each with its value
    and whether it cancelled. *)
Fixpoint history (w : World) (ops : list VoteOp) (cid uid : Z) : list (Z * bool) :=
  match ops with
  | [] => []
  | op :: ops' =>
      let rest := history (step w op) ops' cid uid in
      match action_of w op with
      | Some (c, u, vote) =>
          if bool_decide (id c = cid) && bool_decide (user_id u = uid)
          then (vote, cancels (db w) cid uid vote) :: rest
          else rest
      | None => rest
      end
  end.

Definition latest_non_cancelling (h : list (Z * bool)) : option Z :=
  fst <$> last (List.filter (fun a => negb a.2) h).

(** The pair's rows after a run, read off the last entry of its history. *)
Definition pair_outcome (before after : list CollectionVote) (h : list (Z * bool))
  : Prop :=
  match last h with
  | None => after = before
  | Some (_, true) => after = []
  | Some (vote, false) => exists cv, after = [cv] /\ cv_vote cv = vote
  end.

End VoteMachine.

(** A string of ASCII characters none of which is a digit. *)
Definition plain_without_digit (s : string) : Prop :=
  Forall (fun b => 0 <= b < 128 /\ ~ (48 <= b <= 57)) (bytes_of s).

(** ** The remaining views *)

Section MoreViews.
Context `{Site}.

(** *** Legacy directory pages *)

Definition legacy_directory_redirects (page : string) : View :=
  fun w request =>
    let sorts : gmap string string :=
      <["editors_picks" := "featured"]> (<["popular" := "popular"]> ∅) in
    let base := Reverse "collections.list" [] in
    let loc :=
      match sorts !! page with
      | Some sort => UrlParams base "sort" sort
      | None =>
          match amo_user request with
          | Some u =>
              if bool_decide (page = "mine") then
                Reverse "collections.user" [user_nickname u]
              else if bool_decide (page = "favorites") then
                Reverse "collections.detail" [user_nickname u; "favorites"]
              else base
          | None => base
          end
      end in
    (Ok (redirect loc), w).

(** *** Votes shown on a listing *)

(** [dict((v.collection_id, v) for v in q)]: a later row replaces an
    earlier one with the same key. *)
Definition get_votes (d : Db) (request : Request) (collections : list Collection)
  : gmap Z CollectionVote :=
  match amo_user request with
  | None => ∅
  | Some u =>
      let q :=
        List.filter
          (fun v => bool_decide (cv_user_id v = user_id u)
                    && bool_decide (cv_collection_id v ∈ map id collections))
          (votes d) in
      foldl (fun m v => <[cv_collection_id v := v]> m) ∅ q
  end.

(** *** Listings *)

(** What [collection_listing] hands to its template. *)
Record ListingPage := {
  page_collections : list Collection;
  page_filter : BaseFilter (list Collection);
  page_votes : gmap Z CollectionVote;
  page_extra : list (string * string)
}.

(** [amo.utils.paginate] is taken as a parameter: the slice of the query
    set the request asks for. *)
Definition collection_listing
    (paginate : Request -> list Collection -> list Collection)
    (w : World) (request : Request) (base : option (list Collection))
    (extra : list (string * string)) : ListingPage :=
  let filter := collection_listing_filter w request base in
  let collections := paginate request (qs filter) in
  let votes := get_votes (db w) request collections in
  {| page_collections := collections; page_filter := filter;
     page_votes := votes; page_extra := extra |}.

(** [author__username=username] *)
Definition author_username_is (d : Db) (username : string) (c : Collection) : bool :=
  existsb (fun u => bool_decide (author_id c = Some (user_id u))
                    && bool_decide (user_username u = username)) (users d).

Definition user_listing
    (paginate : Request -> list Collection -> list Collection)
    (w : World) (request : Request) (username : string) : ListingPage :=
  let qs := List.filter (author_username_is (db w) username) (collections (db w)) in
  let own :=
    match amo_user request with
    | Some u => bool_decide (user_username u = username)
    | None => false
    end in
  let qs := if negb own then List.filter listed qs else qs in
  collection_listing paginate w request (Some qs) [("userpage", username)].

(** *** Collection page *)

(** The page itself (the add-on query, its pagination, the random pick of
    the author's other collections, the tags) is built from parts outside
    this module; it is the parameter [detail_page].  The guard in front of
    it is the view's own. *)
Definition collection_detail
    (detail_page : World -> Request -> Collection -> Result Response)
    (username slug_ : string) : View :=
  fun w request =>
    match get_collection w request username slug_ with
    | Raise e => (Raise e, w)
    | Ok c =>
        if negb (listed c
                 || acl.check_collection_ownership request c require_owner_default)
        then (Ok (HttpResponseForbidden None), w)
        else (detail_page w request c, w)
    end.

(** *** The user's collections, for one add-on *)

(** [request.amo_user.collections.manual()] is the parameter [manual].
    The ids of [collection.addons] are read off the membership rows.
    [inr rows] stands for the rendered list: each collection with its
    [has_addon] mark. *)
Definition ajax_list (manual : Db -> UserProfile -> list Collection)
  : World -> Request -> Result (Response + list (Collection * bool)) * World :=
  fun w request =>
    match amo_user request with
    | None => (Ok (inl (redirect LoginUrl)), w)
    | Some u =>
        let collections := manual (db w) u in
        match (try! raw := getitem (GET request) "addon_id" in python_int raw) with
        | Raise e => (Raise e, w)
        | Ok addon_id =>
            let has_addon c :=
              bool_decide (addon_id ∈ map ca_addon_id (memberships (db w) c)) in
            (Ok (inr (map (fun c => (c, has_addon c)) collections)), w)
        end
    end.

End MoreViews.

(** ** A small site to run the views on *)

Module Example.

Definition site : Site := {|
  get_url_path c := Reverse "collections.detail" [slug c];
  SPECIAL_SLUGS_values := ["mobile"; "favorites"];
  special_collection d u s :=
    {| id := 1000 + user_id u; uuid := ""; nickname := ""; slug := s;
       author_id := Some (user_id u); listed := false; type := 4;
       application_id := None; created := 0; rating := 0;
       weekly_subscribers := 0; contributors := [] |};
  COLLECTION_FEATURED := 2;
  require_owner_default := false;
  add_addon d c a :=
    {| users := users d; collections := collections d; addons := addons d;
       collection_addons :=
         collection_addons d ++
         [{| ca_collection_id := id c; ca_addon_id := addon_id a;
             ca_comments := None; ca_created := 0 |}];
       votes := votes d; vote_seq := vote_seq d |};
  remove_addon d c a :=
    {| users := users d; collections := collections d; addons := addons d;
       collection_addons :=
         List.filter (fun ca => negb (bool_decide (ca_collection_id ca = id c)
                                      && bool_decide (ca_addon_id ca = addon_id a)))
                     (collection_addons d);
       votes := votes d; vote_seq := vote_seq d |}
|}.

Definition forms : Forms := {|
  CollectionForm_is_valid _ _ := true;
  CollectionForm_save d _ c := (d, c);
  AddonsForm_is_valid _ _ := true;
  AddonsForm_save d _ _ := d;
  AdminForm_is_valid _ _ := true;
  AdminForm_save d _ _ := d;
  ContributorsForm_is_valid _ _ := true;
  ContributorsForm_save d _ _ := d;
  ContributorsForm_new_owner _ := false
|}.

Definition alice : UserProfile :=
  {| user_id := 1; user_nickname := "alice"; user_username := "alice";
     user_is_admin := false |}.
Definition bob : UserProfile :=
  {| user_id := 2; user_nickname := "bob"; user_username := "bob";
     user_is_admin := false |}.

Definition a_uuid : string := "123e4567-e89b-12d3-a456-426614174000".

Definition best : Collection :=
  {| id := 10; uuid := a_uuid; nickname := "bestof"; slug := "best";
     author_id := Some 1; listed := true; type := 0;
     application_id := Some 1; created := 100; rating := 3;
     weekly_subscribers := 50; contributors := [] |}.

Definition fresh : Collection :=
  {| id := 11; uuid := "223e4567-e89b-12d3-a456-426614174000";
     nickname := "fresh"; slug := "fresh";
     author_id := Some 1; listed := true; type := 0;
     application_id := Some 1; created := 200; rating := 1;
     weekly_subscribers := 5; contributors := [] |}.

Definition adblock : Addon :=
  {| addon_id := 7; addon_name := "adblock"; weekly_downloads := 900 |}.
Definition firebug : Addon :=
  {| addon_id := 8; addon_name := "firebug"; weekly_downloads := 700 |}.

Definition tables : Db :=
  {| users := [alice; bob];
     collections := [best; fresh];
     addons := [adblock; firebug];
     collection_addons :=
       [{| ca_collection_id := 10; ca_addon_id := 7;
           ca_comments := Some "blocks ads"; ca_created := 1 |};
        {| ca_collection_id := 10; ca_addon_id := 8;
           ca_comments := None; ca_created := 2 |}];
     votes := [];
     vote_seq := 1 |}.

Definition world : World := {| db := tables; log := [] |}.

Definition request (m : string) (u : option UserProfile)
    (post : gmap string string) : Request :=
  {| method := m; amo_user := u; GET := ∅; POST := post;
     is_ajax := false; APP_id := 1 |}.

Definition bogus_sort : Request :=
  {| method := "GET"; amo_user := None; GET := <["sort" := "bogus"]> ∅;
     POST := ∅; is_ajax := false; APP_id := 1 |}.

Definition add_abc : Request :=
  request "POST" (Some alice) (<["addon_id" := "abc"]> ∅).

Definition vote_up : VoteOp :=
  {| op_request := request "POST" (Some bob) ∅;
     op_username := "alice"; op_slug := "best"; op_direction := "up" |}.
Definition vote_down : VoteOp :=
  {| op_request := request "POST" (Some bob) ∅;
     op_username := "alice"; op_slug := "best"; op_direction := "down" |}.

End Example.

(** More data for the example site. *)

Module Fixture.
Import Example.

Definition carol : UserProfile :=
  {| user_id := 3; user_nickname := "carol"; user_username := "carol";
     user_is_admin := false |}.

(** A private collection of alice, with carol as contributor. *)
Definition secret : Collection :=
  {| id := 12; uuid := "323e4567-e89b-12d3-a456-426614174000";
     nickname := "secret"; slug := "secret";
     author_id := Some 1; listed := false; type := 0;
     application_id := None; created := 300; rating := 0;
     weekly_subscribers := 0; contributors := [3] |}.

Definition bob_up : CollectionVote :=
  {| cv_id := 1; cv_collection_id := 10; cv_user_id := 2; cv_vote := 1 |}.

Definition tables : Db :=
  {| users := [alice; bob; carol];
     collections := [best; fresh; secret];
     addons := [adblock; firebug];
     collection_addons :=
       [{| ca_collection_id := 12; ca_addon_id := 7;
           ca_comments := None; ca_created := 1 |}];
     votes := [bob_up;
               {| cv_id := 2; cv_collection_id := 12; cv_user_id := 3;
                  cv_vote := -1 |}];
     vote_seq := 3 |}.

Definition world : World := {| db := tables; log := [] |}.

Definition sure (v : string) (u : UserProfile) : Request :=
  request "POST" (Some u) (<["sure" := v]> ∅).

Definition add_addon_7 : Request :=
  request "POST" (Some alice) (<["addon_id" := "7"]> ∅).

Definition list_for (raw : string) : Request :=
  {| method := "GET"; amo_user := Some alice; GET := <["addon_id" := raw]> ∅;
     POST := ∅; is_ajax := true; APP_id := 1 |}.

Definition whole_page (request : Request) (l : list Collection) : list Collection := l.

Definition manual (d : Db) (u : UserProfile) : list Collection :=
  List.filter (fun c => bool_decide (author_id c = Some (user_id u))) (collections d).

End Fixture.

(** * Properties *)

(** ** Lists and the ORM primitives *)

Section ListFacts.
Context {A : Type}.

Lemma filter_map_commute (P : A -> bool) (f : A -> A) (l : list A) :
  (forall x, In x l -> P (f x) = P x) ->
  List.filter P (map f l) = map f (List.filter P l).
Proof.
  induction l as [|x l IH]; intros Hf; simpl; [reflexivity|].
  rewrite (Hf x) by (left; reflexivity).
  rewrite IH by (intros y Hy; apply Hf; right; exact Hy).
  destruct (P x); reflexivity.
Qed.

Lemma filter_all (P : A -> bool) (l : list A) :
  (forall x, In x l -> P x = true) -> List.filter P l = l.
Proof.
  induction l as [|x l IH]; intros Hf; simpl; [reflexivity|].
  rewrite (Hf x) by (left; reflexivity).
  f_equal. apply IH. intros y Hy. apply Hf. right. exact Hy.
Qed.

Lemma map_id_on (f : A -> A) (l : list A) :
  (forall x, In x l -> f x = x) -> map f l = l.
Proof.
  induction l as [|x l IH]; intros Hf; simpl; [reflexivity|].
  rewrite (Hf x) by (left; reflexivity).
  f_equal. apply IH. intros y Hy. apply Hf. right. exact Hy.
Qed.

Lemma filter_filter_swap (P Q : A -> bool) (l : list A) :
  List.filter P (List.filter Q l) = List.filter Q (List.filter P l).
Proof.
  induction l as [|x l IH]; simpl; [reflexivity|].
  destruct (Q x) eqn:HQ, (P x) eqn:HP; simpl; rewrite ?HQ, ?HP, IH; reflexivity.
Qed.

Lemma filter_length_le (P : A -> bool) (l : list A) :
  (List.length (List.filter P l) <= List.length l)%nat.
Proof.
  induction l as [|x l IH]; simpl; [lia|]. destruct (P x); simpl; lia.
Qed.

Lemma key_injective_on {B : Type} (key : A -> B) (l : list A) (x y : A) :
  NoDup (map key l) -> In x l -> In y l -> key x = key y -> x = y.
Proof.
  induction l as [|a l IH]; simpl; intros Hnd Hx Hy Hk; [contradiction|].
  apply NoDup_cons in Hnd as [Hin Hnd].
  destruct Hx as [<-|Hx], Hy as [<-|Hy]; try reflexivity.
  - exfalso. apply Hin. rewrite Hk. apply list_elem_of_In, in_map, Hy.
  - exfalso. apply Hin. rewrite <- Hk. apply list_elem_of_In, in_map, Hx.
  - apply IH; assumption.
Qed.

Lemma get_nil (P : A -> bool) (l : list A) :
  List.filter P l = [] -> get P l = Ok None.
Proof. unfold get. intros ->. reflexivity. Qed.

Lemma get_one (P : A -> bool) (l : list A) (x : A) :
  List.filter P l = [x] -> get P l = Ok (Some x).
Proof. unfold get. intros ->. reflexivity. Qed.

End ListFacts.

(** ** The vote table under one action *)

Section VoteFacts.
Context `{Site}.

Lemma vote_step_create w request username slug_ direction u c vote :
  amo_user request = Some u ->
  method request = "POST" ->
  get_collection w request username slug_ = Ok c ->
  vote_of_direction direction = Ok vote ->
  vget (db w) (id c) (user_id u) = [] ->
  collection_vote username slug_ direction w request =
    (Ok (vote_response request c),
     with_db (set_votes (votes (db w) ++ [new_vote (db w) c u vote])
                        (vote_seq (db w) + 1) (db w)) w).
Proof.
  intros Hu Hm Hc Hv Hg.
  unfold collection_vote, login_required, is_authenticated, collection_vote_body.
  rewrite Hu, Hc, Hv, Hm. rewrite bool_decide_eq_true_2 by reflexivity. simpl.
  unfold get_or_create_vote. rewrite (get_nil _ _ Hg). simpl.
  unfold vote_response. destruct (is_ajax request); reflexivity.
Qed.

Lemma vote_step_cancel w request username slug_ direction u c vote cv :
  amo_user request = Some u ->
  method request = "POST" ->
  get_collection w request username slug_ = Ok c ->
  vote_of_direction direction = Ok vote ->
  vget (db w) (id c) (user_id u) = [cv] ->
  cv_vote cv = vote ->
  collection_vote username slug_ direction w request =
    (Ok (vote_response request c), with_db (delete_vote cv (db w)) w).
Proof.
  intros Hu Hm Hc Hv Hg He.
  unfold collection_vote, login_required, is_authenticated, collection_vote_body.
  rewrite Hu, Hc, Hv, Hm. rewrite bool_decide_eq_true_2 by reflexivity. simpl.
  unfold get_or_create_vote. rewrite (get_one _ _ _ Hg). simpl.
  rewrite bool_decide_eq_true_2 by exact He.
  unfold vote_response. destruct (is_ajax request); reflexivity.
Qed.

Lemma vote_step_flip w request username slug_ direction u c vote cv :
  amo_user request = Some u ->
  method request = "POST" ->
  get_collection w request username slug_ = Ok c ->
  vote_of_direction direction = Ok vote ->
  vget (db w) (id c) (user_id u) = [cv] ->
  cv_vote cv <> vote ->
  collection_vote username slug_ direction w request =
    (Ok (vote_response request c),
     with_db (save_vote (with_vote vote cv) (db w)) w).
Proof.
  intros Hu Hm Hc Hv Hg He.
  unfold collection_vote, login_required, is_authenticated, collection_vote_body.
  rewrite Hu, Hc, Hv, Hm. rewrite bool_decide_eq_true_2 by reflexivity. simpl.
  unfold get_or_create_vote. rewrite (get_one _ _ _ Hg). simpl.
  rewrite bool_decide_eq_false_2 by exact He.
  unfold vote_response. destruct (is_ajax request); reflexivity.
Qed.

Lemma vote_step_not_post w request username slug_ direction u c :
  amo_user request = Some u ->
  method request <> "POST" ->
  get_collection w request username slug_ = Ok c ->
  collection_vote username slug_ direction w request =
    (Ok (redirect (get_url_path c)), w).
Proof.
  intros Hu Hm Hc.
  unfold collection_vote, login_required, is_authenticated, collection_vote_body.
  rewrite Hu, Hc. rewrite bool_decide_eq_false_2 by exact Hm. reflexivity.
Qed.

(** Membership in the pair's rows. *)
Lemma vget_In d cid uid v :
  In v (vget d cid uid) <->
  In v (votes d) /\ cv_collection_id v = cid /\ cv_user_id v = uid.
Proof.
  unfold vget, vote_matches. rewrite filter_In, andb_true_iff.
  rewrite !bool_decide_eq_true. tauto.
Qed.

Lemma vget_create d c u vote cid uid :
  vget (set_votes (votes d ++ [new_vote d c u vote]) (vote_seq d + 1) d) cid uid =
  (vget d cid uid ++
   if bool_decide (id c = cid) && bool_decide (user_id u = uid)
   then [new_vote d c u vote] else [])%list.
Proof.
  unfold vget. simpl. rewrite List.filter_app. simpl. reflexivity.
Qed.

Lemma vget_delete d cv cid uid :
  NoDup (map cv_id (votes d)) -> In cv (votes d) ->
  vget (delete_vote cv d) cid uid =
  List.filter (fun v => negb (bool_decide (v = cv))) (vget d cid uid).
Proof.
  intros Hnd Hin. unfold vget, delete_vote. simpl.
  rewrite filter_filter_swap.
  apply List.filter_ext_in. intros v Hv. f_equal.
  apply bool_decide_ext. split; [|intros ->; reflexivity].
  apply filter_In in Hv as [Hv _].
  apply (key_injective_on cv_id (votes d)); assumption.
Qed.

Lemma vget_save d cv vote cid uid :
  NoDup (map cv_id (votes d)) -> In cv (votes d) ->
  vget (save_vote (with_vote vote cv) d) cid uid =
  map (fun v => if bool_decide (v = cv) then with_vote vote cv else v)
      (vget d cid uid).
Proof.
  intros Hnd Hin. unfold vget, save_vote. simpl.
  replace (existsb _ (votes d)) with true.
  2:{ symmetry. apply existsb_exists. exists cv. split; [exact Hin|].
      apply bool_decide_eq_true. reflexivity. }
  simpl.
  rewrite (List.map_ext_in _
             (fun v => if bool_decide (v = cv) then with_vote vote cv else v)).
  - apply filter_map_commute. intros v Hv.
    destruct (bool_decide_reflect (v = cv)) as [->|]; reflexivity.
  - intros v Hv.
    rewrite (bool_decide_ext (cv_id v = cv_id cv) (v = cv)); [reflexivity|].
    split; [|intros ->; reflexivity].
    apply (key_injective_on cv_id (votes d)); assumption.
Qed.

Lemma votes_wf_create d c u vote :
  votes_wf d ->
  votes_wf (set_votes (votes d ++ [new_vote d c u vote]) (vote_seq d + 1) d).
Proof.
  intros [Hnd Hlt]. split; simpl.
  - rewrite map_app. simpl. apply NoDup_app. split; [exact Hnd|].
    split; [|apply NoDup_singleton].
    intros k Hk Hk'. apply list_elem_of_singleton in Hk'. subst k.
    apply list_elem_of_In, in_map_iff in Hk as [v [Hv Hin]].
    rewrite Forall_forall in Hlt. apply list_elem_of_In, Hlt in Hin. lia.
  - apply Forall_app. split.
    + eapply Forall_impl; [exact Hlt|]. simpl. intros; lia.
    + constructor; [simpl; lia|constructor].
Qed.

Lemma votes_wf_delete d cv : votes_wf d -> votes_wf (delete_vote cv d).
Proof.
  intros [Hnd Hlt]. split; simpl.
  - clear Hlt. induction (votes d) as [|v l IH]; simpl; [constructor|].
    simpl in Hnd. apply NoDup_cons in Hnd as [Hv Hnd].
    destruct (negb _); simpl; [|apply IH; exact Hnd].
    apply NoDup_cons. split; [|apply IH; exact Hnd].
    intros Hin. apply Hv. apply list_elem_of_In in Hin. apply list_elem_of_In.
    apply in_map_iff in Hin as [x [Hx Hin]]. apply in_map_iff.
    exists x. split; [exact Hx|]. apply filter_In in Hin. tauto.
  - rewrite Forall_forall in *. intros v Hv. apply Hlt.
    apply list_elem_of_In in Hv. apply list_elem_of_In.
    apply filter_In in Hv. tauto.
Qed.

Lemma votes_wf_save d cv vote :
  votes_wf d -> In cv (votes d) -> votes_wf (save_vote (with_vote vote cv) d).
Proof.
  intros [Hnd Hlt] Hin. unfold save_vote.
  replace (existsb _ (votes d)) with true.
  2:{ symmetry. apply existsb_exists. exists cv. split; [exact Hin|].
      apply bool_decide_eq_true. reflexivity. }
  assert (Hids : forall l,
    map cv_id (map (fun v => if bool_decide (cv_id v = cv_id (with_vote vote cv))
                             then with_vote vote cv else v) l) = map cv_id l).
  { intros l. rewrite List.map_map. apply List.map_ext. intros v.
    destruct (bool_decide_reflect (cv_id v = cv_id (with_vote vote cv))) as [->|];
      reflexivity. }
  split; simpl.
  - rewrite Hids. exact Hnd.
  - rewrite Forall_forall in *. intros v Hv.
    apply list_elem_of_In, in_map_iff in Hv as [x [Hx Hv]].
    apply list_elem_of_In, Hlt in Hv.
    subst v. destruct (bool_decide_reflect (cv_id x = cv_id cv)) as [E|];
      [|exact Hv].
    change (cv_id cv < vote_seq d). rewrite <- E. exact Hv.
Qed.

End VoteFacts.

(** ** Runs of vote operations *)

Section VoteRuns.
Context `{Site}.

Lemma step_no_action w op : action_of w op = None -> step w op = w.
Proof.
  unfold action_of, step, collection_vote, login_required, is_authenticated,
    collection_vote_body.
  destruct (amo_user (op_request op)) as [u|]; [|reflexivity].
  destruct (get_collection w (op_request op) (op_username op) (op_slug op))
    as [c|e]; [|reflexivity].
  destruct (bool_decide_reflect (method (op_request op) = "POST")) as [Hm|Hm];
    simpl; [|reflexivity].
  destruct (vote_of_direction (op_direction op)); [discriminate|reflexivity].
Qed.

Lemma action_of_Some w op c u vote :
  action_of w op = Some (c, u, vote) ->
  amo_user (op_request op) = Some u /\ method (op_request op) = "POST" /\
  get_collection w (op_request op) (op_username op) (op_slug op) = Ok c /\
  vote_of_direction (op_direction op) = Ok vote.
Proof.
  unfold action_of.
  destruct (amo_user (op_request op)) as [u'|]; [|discriminate].
  destruct (get_collection w (op_request op) (op_username op) (op_slug op))
    as [c'|e]; [|discriminate].
  destruct (vote_of_direction (op_direction op)) as [v'|]; [|discriminate].
  destruct (bool_decide_reflect (method (op_request op) = "POST")); [|discriminate].
  intros [= -> -> ->]. auto.
Qed.

(** What one action does to the pair it addresses and to the others. *)
Lemma step_action w op c u vote :
  action_of w op = Some (c, u, vote) ->
  votes_wf (db w) -> at_most_one_vote (db w) ->
  votes_wf (db (step w op)) /\
  (forall cid uid, ~ (id c = cid /\ user_id u = uid) ->
     vget (db (step w op)) cid uid = vget (db w) cid uid) /\
  (if cancels (db w) (id c) (user_id u) vote
   then vget (db (step w op)) (id c) (user_id u) = []
   else exists cv, vget (db (step w op)) (id c) (user_id u) = [cv] /\ cv_vote cv = vote).
Proof.
  intros Ha Hwf Hone. apply action_of_Some in Ha as (Hu & Hm & Hc & Hv).
  unfold step, cancels. specialize (Hone (id c) (user_id u)).
  destruct (vget (db w) (id c) (user_id u)) as [|cv [|cv' l]] eqn:Hg;
    [| |simpl in Hone; lia].
  - rewrite (vote_step_create _ _ _ _ _ _ _ _ Hu Hm Hc Hv Hg). simpl.
    split; [apply votes_wf_create; exact Hwf|]. split.
    + intros cid uid Hne. rewrite vget_create.
      destruct (bool_decide_reflect (id c = cid)), (bool_decide_reflect (user_id u = uid));
        simpl; try (exfalso; apply Hne; split; assumption); apply app_nil_r.
    + exists (new_vote (db w) c u vote). split; [|reflexivity].
      rewrite vget_create, Hg. rewrite !bool_decide_eq_true_2 by reflexivity.
      reflexivity.
  - assert (Hin : In cv (vget (db w) (id c) (user_id u))) by (rewrite Hg; left; reflexivity).
    apply vget_In in Hin as (Hin & Hcid & Huid). destruct Hwf as [Hnd Hlt].
    assert (Hother : forall cid uid, ~ (id c = cid /\ user_id u = uid) ->
              forall v, In v (vget (db w) cid uid) -> v <> cv).
    { intros cid uid Hne v Hv0 ->. apply vget_In in Hv0 as (_ & <- & <-).
      apply Hne. split; congruence. }
    simpl. destruct (bool_decide_reflect (cv_vote cv = vote)) as [He|He]; simpl.
    + rewrite (vote_step_cancel _ _ _ _ _ _ _ _ _ Hu Hm Hc Hv Hg He). simpl.
      split; [apply votes_wf_delete; split; assumption|]. split.
      * intros cid uid Hne. rewrite vget_delete by assumption.
        apply filter_all. intros v Hin'. apply negb_true_iff, bool_decide_eq_false.
        eapply Hother; eassumption.
      * rewrite vget_delete by assumption. rewrite Hg. simpl.
        rewrite bool_decide_eq_true_2 by reflexivity. reflexivity.
    + rewrite (vote_step_flip _ _ _ _ _ _ _ _ _ Hu Hm Hc Hv Hg He). simpl.
      split; [apply votes_wf_save; [split|]; assumption|]. split.
      * intros cid uid Hne. rewrite vget_save by assumption.
        apply map_id_on. intros v Hin'.
        rewrite bool_decide_eq_false_2; [reflexivity|].
        eapply Hother; eassumption.
      * exists (with_vote vote cv). split; [|reflexivity].
        rewrite vget_save by assumption. rewrite Hg. simpl.
        rewrite bool_decide_eq_true_2 by reflexivity. reflexivity.
Qed.

Lemma step_at_most_one w op :
  votes_wf (db w) -> at_most_one_vote (db w) ->
  votes_wf (db (step w op)) /\ at_most_one_vote (db (step w op)).
Proof.
  intros Hwf Hone. destruct (action_of w op) as [[[c u] vote]|] eqn:Ha.
  - destruct (step_action _ _ _ _ _ Ha Hwf Hone) as (Hwf' & Hoth & Hown).
    split; [exact Hwf'|]. intros cid uid.
    destruct (decide (id c = cid /\ user_id u = uid)) as [[<- <-]|Hne].
    + destruct (cancels _ _ _ _).
      * rewrite Hown. simpl. lia.
      * destruct Hown as (cv & -> & _). simpl. lia.
    + rewrite Hoth by exact Hne. apply Hone.
  - rewrite (step_no_action _ _ Ha). split; assumption.
Qed.

Lemma run_invariant ops : forall w,
  votes_wf (db w) -> at_most_one_vote (db w) ->
  votes_wf (db (run ops w)) /\ at_most_one_vote (db (run ops w)) /\
  forall cid uid,
    pair_outcome (vget (db w) cid uid) (vget (db (run ops w)) cid uid)
                 (history w ops cid uid).
Proof.
  induction ops as [|op ops IH]; intros w Hwf Hone.
  - simpl. split; [exact Hwf|]. split; [exact Hone|]. intros; reflexivity.
  - destruct (step_at_most_one w op Hwf Hone) as [Hwf1 Hone1].
    destruct (IH _ Hwf1 Hone1) as (Hwf' & Hone' & Hout).
    change (run (op :: ops) w) with (run ops (step w op)).
    split; [exact Hwf'|]. split; [exact Hone'|]. intros cid uid.
    specialize (Hout cid uid). unfold pair_outcome in *. simpl.
    destruct (action_of w op) as [[[c u] vote]|] eqn:Ha.
    + destruct (step_action _ _ _ _ _ Ha Hwf Hone) as (_ & Hoth & Hown).
      destruct (bool_decide_reflect (id c = cid)) as [<-|Hc]; simpl.
      * destruct (bool_decide_reflect (user_id u = uid)) as [<-|Hu]; simpl.
        -- rewrite last_cons.
           destruct (last (history (step w op) ops (id c) (user_id u)))
             as [[v b]|]; [exact Hout|].
           rewrite Hout. exact Hown.
        -- rewrite Hoth in Hout by (intros [_ ?]; contradiction). exact Hout.
      * rewrite Hoth in Hout by (intros [? _]; contradiction). exact Hout.
    + rewrite (step_no_action _ _ Ha) in *. exact Hout.
Qed.

Lemma latest_non_cancelling_snoc h vote :
  latest_non_cancelling (h ++ [(vote, false)]) = Some vote.
Proof.
  unfold latest_non_cancelling. rewrite List.filter_app. simpl.
  rewrite last_snoc. reflexivity.
Qed.

End VoteRuns.

(** ** The claims about voting *)

Section VoteClaims.
Context `{Site}.


(** C2, as amended.  From a vote table without rows, after any sequence
    of calls of [collection_vote] every (collection, user) pair has at most
    one row, and a row that exists carries the value of the pair's latest
    non-cancelling action, which is the pair's last action. *)
Theorem votes_reflect_latest_action w0 ops :
  votes (db w0) = [] ->
  at_most_one_vote (db (run ops w0)) /\
  forall cid uid cv,
    In cv (vget (db (run ops w0)) cid uid) ->
    vget (db (run ops w0)) cid uid = [cv] /\
    latest_non_cancelling (history w0 ops cid uid) = Some (cv_vote cv) /\
    last (history w0 ops cid uid) = Some (cv_vote cv, false).
Proof.
  intros Hv0.
  assert (Hwf : votes_wf (db w0)).
  { unfold votes_wf. rewrite Hv0. split; constructor. }
  assert (Hone : at_most_one_vote (db w0)).
  { intros cid uid. unfold vget. rewrite Hv0. simpl. lia. }
  destruct (run_invariant ops w0 Hwf Hone) as (_ & Hone' & Hout).
  split; [exact Hone'|]. intros cid uid cv Hin.
  specialize (Hout cid uid). unfold pair_outcome in Hout.
  destruct (last (history w0 ops cid uid)) as [[vote b]|] eqn:Hl.
  - destruct b.
    + rewrite Hout in Hin. destruct Hin.
    + destruct Hout as (cv' & Hg & Hvote). rewrite Hg in Hin.
      destruct Hin as [<-|[]]. split; [exact Hg|]. subst vote.
      split; [|reflexivity].
      apply last_Some in Hl as [h ->]. apply latest_non_cancelling_snoc.
  - rewrite Hout in Hin. unfold vget in Hin. rewrite Hv0 in Hin. destruct Hin.
Qed.

End VoteClaims.


Lemma votes_reflect_latest_action_witness :
  at_most_one_vote
    (db (run (H:=Example.site) [Example.vote_up; Example.vote_down] Example.world)).
Proof.
  apply (votes_reflect_latest_action (H:=Example.site) Example.world
           [Example.vote_up; Example.vote_down] eq_refl).
Defined.

(** C2 as the spec words it fails: after voting up twice the pair has no
    row, so it is not true that exactly one row exists at every reachable
    state. *)
Lemma exactly_one_vote_fails :
  votes Example.tables = [] /\
  ~ exactly_one_vote
      (db (run (H:=Example.site) [Example.vote_up; Example.vote_up] Example.world)).
Proof.
  split; [reflexivity|]. intros Hex. specialize (Hex 10 2).
  vm_compute in Hex. discriminate Hex.
Qed.

(** ** The claims about access and deletion *)

Section GuardClaims.
Context `{Site} `{Forms}.

Lemma stranger_is_refused request u c require_owner :
  amo_user request = Some u ->
  user_is_admin u = false ->
  author_id c <> Some (user_id u) ->
  ¬ In (user_id u) (contributors c) ->
  acl.check_collection_ownership request c require_owner = false.
Proof.
  intros Hu Ha Ho Hc. unfold acl.check_collection_ownership. rewrite Hu, Ha.
  rewrite bool_decide_eq_false_2 by exact Ho.
  rewrite (bool_decide_eq_false_2 (user_id u ∈ contributors c))
    by (rewrite list_elem_of_In; exact Hc).
  destruct require_owner; reflexivity.
Qed.

Lemma owner_required_refuses require_owner func username slug_ w request c :
  get_collection w request username slug_ = Ok c ->
  acl.check_collection_ownership request c require_owner = false ->
  owner_required require_owner func username slug_ w request =
    (Ok (HttpResponseForbidden (Some not_the_collection)), w).
Proof. intros Hc Hno. unfold owner_required. rewrite Hc, Hno. reflexivity. Qed.

(** C3.  A logged-in identity that is neither the author of the
    collection, nor one of its contributors, nor an administrator gets a
    Forbidden response from [edit], [edit_addons], [edit_contributors],
    [edit_privacy], from a POST to [collection_alter] and from [delete];
    the tables are left as they were. *)
Theorem stranger_gets_forbidden w request u username slug_ c :
  amo_user request = Some u ->
  user_is_admin u = false ->
  author_id c <> Some (user_id u) ->
  ¬ In (user_id u) (contributors c) ->
  (get_collection w request username slug_ = Ok c ->
     let refused := (Ok (HttpResponseForbidden (Some not_the_collection)), w) in
     edit username slug_ w request = refused /\
     edit_addons username slug_ w request = refused /\
     edit_contributors username slug_ w request = refused /\
     edit_privacy username slug_ w request = refused /\
     (method request = "POST" -> forall action,
        collection_alter username slug_ action w request =
          (Ok (HttpResponseForbidden None), w))) /\
  (get_object_or_404 (by_author_and_slug (db w) username slug_)
                     (collections (db w)) = Ok c ->
     delete username slug_ w request =
       (Ok (HttpResponseForbidden (Some not_the_collection)),
        log_info (LogTryingToDelete (Some u) (id c)) w) /\
     db (delete username slug_ w request).2 = db w).
Proof.
  intros Hu Ha Ho Hc.
  pose proof (stranger_is_refused request u c) as Hno.
  split.
  - intros Hres. simpl.
    unfold edit, edit_addons, edit_contributors, edit_privacy, collection_alter,
      login_required, post_required, is_authenticated.
    rewrite Hu.
    rewrite !(owner_required_refuses _ _ _ _ _ _ c) by auto.
    repeat (split; [reflexivity|]).
    intros Hm action. rewrite bool_decide_eq_true_2 by exact Hm.
    rewrite Hres. unfold change_addon. rewrite Hno by assumption. reflexivity.
  - intros Hres. unfold delete, login_required, is_authenticated, delete_body.
    rewrite Hu, Hres, Hno by assumption. simpl. split; reflexivity.
Qed.

(** [collection_alter] checks the method before the owner: a request that
    is not a POST is turned away as not allowed, whoever sends it. *)
Lemma collection_alter_not_post w request username slug_ action :
  is_authenticated request = true ->
  method request <> "POST" ->
  collection_alter username slug_ action w request = (Ok HttpResponseNotAllowed, w).
Proof.
  intros Ha Hm. unfold collection_alter, login_required, post_required.
  rewrite Ha. rewrite bool_decide_eq_false_2 by exact Hm. reflexivity.
Qed.

(** An unconfirmed or confirmed POST to [delete] by someone allowed to. *)
Lemma delete_confirmed w request username slug_ c :
  is_authenticated request = true ->
  get_object_or_404 (by_author_and_slug (db w) username slug_)
                    (collections (db w)) = Ok c ->
  acl.check_collection_ownership request c true = true ->
  method request = "POST" ->
  POST request !! "sure" = Some "1" ->
  delete username slug_ w request =
    (Ok (HttpResponseRedirect (Reverse "collections.user" [username])),
     log_info (LogDeleted (amo_user request) None)
              (with_db (delete_collection c (db w)) w)).
Proof.
  intros Ha Hres Hown Hm Hs. unfold delete, login_required, delete_body.
  rewrite Ha, Hres, Hown. simpl. rewrite bool_decide_eq_true_2 by exact Hm.
  unfold getitem. rewrite Hs. reflexivity.
Qed.

Lemma delete_declined w request username slug_ c sure :
  is_authenticated request = true ->
  get_object_or_404 (by_author_and_slug (db w) username slug_)
                    (collections (db w)) = Ok c ->
  acl.check_collection_ownership request c true = true ->
  method request = "POST" ->
  POST request !! "sure" = Some sure -> sure <> "1" ->
  delete username slug_ w request =
    (Ok (HttpResponseRedirect (get_url_path c)), w).
Proof.
  intros Ha Hres Hown Hm Hs Hne. unfold delete, login_required, delete_body.
  rewrite Ha, Hres, Hown. simpl. rewrite bool_decide_eq_true_2 by exact Hm.
  unfold getitem. rewrite Hs. rewrite bool_decide_eq_false_2 by exact Hne.
  reflexivity.
Qed.

Lemma delete_without_flag w request username slug_ c :
  is_authenticated request = true ->
  get_object_or_404 (by_author_and_slug (db w) username slug_)
                    (collections (db w)) = Ok c ->
  acl.check_collection_ownership request c true = true ->
  method request = "POST" ->
  POST request !! "sure" = None ->
  delete username slug_ w request = (Raise KeyError, w).
Proof.
  intros Ha Hres Hown Hm Hs. unfold delete, login_required, delete_body.
  rewrite Ha, Hres, Hown. simpl. rewrite bool_decide_eq_true_2 by exact Hm.
  unfold getitem. rewrite Hs. reflexivity.
Qed.

Lemma vote_of_direction_total direction :
  (exists vote, vote_of_direction direction = Ok vote) <->
  direction = "up" \/ direction = "down".
Proof.
  unfold vote_of_direction, getitem. split.
  - intros [vote Hv].
    destruct (decide (direction = "up")) as [|Hup]; [left; assumption|].
    destruct (decide (direction = "down")) as [|Hdn]; [right; assumption|].
    rewrite lookup_insert_ne, lookup_insert_ne, lookup_empty in Hv by congruence.
    discriminate.
  - intros [->| ->]; eexists; reflexivity.
Qed.

(** C9.  A POST by a logged-in user to a collection that resolves, with a
    direction that is neither up nor down, leaves [collection_vote]
    through an unhandled [KeyError] and changes nothing; the lookup of the
    direction succeeds exactly for up and down. *)
Theorem collection_vote_bad_direction w request username slug_ direction u c :
  amo_user request = Some u ->
  method request = "POST" ->
  get_collection w request username slug_ = Ok c ->
  direction <> "up" -> direction <> "down" ->
  collection_vote username slug_ direction w request = (Raise KeyError, w) /\
  forall d, (exists vote, vote_of_direction d = Ok vote) <-> d = "up" \/ d = "down".
Proof.
  intros Hu Hm Hc Hup Hdn. split; [|apply vote_of_direction_total].
  unfold collection_vote, login_required, is_authenticated, collection_vote_body.
  rewrite Hu, Hc. rewrite bool_decide_eq_true_2 by exact Hm. simpl.
  unfold vote_of_direction, getitem.
  rewrite lookup_insert_ne, lookup_insert_ne, lookup_empty by congruence.
  reflexivity.
Qed.

End GuardClaims.

(** ** The claims about listings and the legacy redirect *)

Section OrderFacts.
Context {A : Type} (key : A -> Z).

#[local] Instance desc_by_transitive : Transitive (desc_by key).
Proof. unfold desc_by. intros x y z ? ?. lia. Qed.
#[local] Instance desc_by_total : Total (desc_by key).
Proof. unfold desc_by. intros x y. lia. Qed.
#[local] Instance asc_by_transitive : Transitive (asc_by key).
Proof. unfold asc_by. intros x y z ? ?. lia. Qed.
#[local] Instance asc_by_total : Total (asc_by key).
Proof. unfold asc_by. intros x y. lia. Qed.

Lemma order_by_desc_sorted (qs : list A) :
  order_by_desc key qs ≡ₚ qs /\ StronglySorted (desc_by key) (order_by_desc key qs).
Proof.
  split; [apply merge_sort_Permutation|apply StronglySorted_merge_sort; apply _].
Qed.

Lemma order_by_asc_sorted (qs : list A) :
  order_by_asc key qs ≡ₚ qs /\ StronglySorted (asc_by key) (order_by_asc key qs).
Proof.
  split; [apply merge_sort_Permutation|apply StronglySorted_merge_sort; apply _].
Qed.

End OrderFacts.

Section ListingClaims.
Context `{Site}.

(** The keys the collection filter handles as the listing describes them. *)
Lemma CollectionFilter_featured base :
  CollectionFilter_filter base "featured" =
  List.filter (fun c => bool_decide (type c = COLLECTION_FEATURED)) base.
Proof. reflexivity. Qed.

Lemma CollectionFilter_rating base :
  CollectionFilter_filter base "rating" ≡ₚ base /\
  StronglySorted (desc_by rating) (CollectionFilter_filter base "rating").
Proof. apply (order_by_desc_sorted rating). Qed.

Lemma CollectionFilter_created base :
  CollectionFilter_filter base "created" ≡ₚ base /\
  StronglySorted (desc_by created) (CollectionFilter_filter base "created").
Proof. apply (order_by_desc_sorted created). Qed.

(** The branch for the subscriber count answers to the key followers,
    so popular is ordered as created is. *)
Lemma CollectionFilter_popular base :
  CollectionFilter_filter base "popular" = order_by_desc created base /\
  CollectionFilter_filter base "followers" = order_by_desc weekly_subscribers base.
Proof. split; reflexivity. Qed.

(** The add-on filter has no final branch of its own: called directly with
    a field it does not know it returns nothing, so the fallback is the
    one [BaseFilter] makes before it calls [filter]. *)
Lemma CollectionAddonFilter_unknown_field by_name base field :
  ¬ In field CollectionAddonFilter_opts ->
  CollectionAddonFilter_filter by_name base field = None.
Proof.
  intros Hno. unfold CollectionAddonFilter_filter.
  rewrite !bool_decide_eq_false_2; [reflexivity| | |];
    intros ->; apply Hno; simpl; tauto.
Qed.



(** The length is counted in characters: a nickname of eighteen Cyrillic
    letters takes thirty-six bytes and is still looked up as a nickname. *)
Lemma legacy_key_counts_characters :
  legacy_key "коллекциядополнени" = by_nickname /\
  String.length "коллекциядополнени" = 36%nat.
Proof. split; reflexivity. Qed.

End ListingClaims.

(** ** The claims about add-on changes and notes *)

Section AlterClaims.
Context `{Site}.

Lemma bad_identifier_lookup {A} request field (pk_of : A -> Z) rows :
  bad_identifier request field ->
  (try! raw := getitem (POST request) field in get_by_pk pk_of rows raw)
    = Raise KeyError \/
  (try! raw := getitem (POST request) field in get_by_pk pk_of rows raw)
    = Raise ValueError.
Proof.
  unfold getitem, get_by_pk. intros [Hnone|(raw & Hraw & Hint)].
  - left. rewrite Hnone. reflexivity.
  - right. rewrite Hraw. simpl. rewrite Hint. reflexivity.
Qed.

(** C8.  An authorized POST to [collection_alter] whose body has no
    [addon_id] or one that is not an integer, and a POST to
    [ajax_collection_alter] whose body has no [id] or [addon_id] or one that
    is not an integer, is answered with BadRequest and changes nothing. *)
Theorem bad_identifier_is_bad_request w request u :
  amo_user request = Some u ->
  method request = "POST" ->
  (forall username slug_ action c,
     get_collection w request username slug_ = Ok c ->
     acl.check_collection_ownership request c require_owner_default = true ->
     bad_identifier request "addon_id" ->
     collection_alter username slug_ action w request =
       (Ok HttpResponseBadRequest, w)) /\
  (forall action,
     bad_identifier request "id" ->
     ajax_collection_alter action w request = (Ok HttpResponseBadRequest, w)) /\
  (forall action raw c,
     POST request !! "id" = Some raw ->
     get_by_pk id (collections (db w)) raw = Ok c ->
     acl.check_collection_ownership request c require_owner_default = true ->
     bad_identifier request "addon_id" ->
     ajax_collection_alter action w request = (Ok HttpResponseBadRequest, w)).
Proof.
  intros Hu Hm.
  assert (Hchange : forall c action,
    acl.check_collection_ownership request c require_owner_default = true ->
    bad_identifier request "addon_id" ->
    change_addon c action w request = (Ok HttpResponseBadRequest, w)).
  { intros c action Hown Hbad. unfold change_addon. rewrite Hown. simpl.
    destruct (bad_identifier_lookup request "addon_id" addon_id (addons (db w)) Hbad)
      as [-> | ->]; reflexivity. }
  unfold collection_alter, ajax_collection_alter, login_required, post_required,
    is_authenticated.
  rewrite Hu. rewrite bool_decide_eq_true_2 by exact Hm.
  split; [|split].
  - intros username slug_ action c Hc Hown Hbad. rewrite Hc. auto.
  - intros action Hbad.
    destruct (bad_identifier_lookup request "id" id (collections (db w)) Hbad)
      as [-> | ->]; reflexivity.
  - intros action raw c Hraw Hc Hown Hbad. unfold getitem. rewrite Hraw. simpl.
    rewrite Hc. auto.
Qed.

End AlterClaims.

Section NotesClaims.
Context `{Site} `{Forms}.

(** The mapping keeps, for each add-on, the comment of the last note that
    names it. *)
Lemma collect_notes_from (notes : list CollectionAddon) :
  forall (m : gmap Z (option string)) a,
    foldl (fun rv note => <[ca_addon_id note := ca_comments note]> rv) m notes !! a =
    match last (List.filter (fun n => bool_decide (ca_addon_id n = a)) notes) with
    | Some n => Some (ca_comments n)
    | None => m !! a
    end.
Proof.
  induction notes as [|x notes IH]; intros m a; simpl; [reflexivity|].
  rewrite IH. destruct (bool_decide_reflect (ca_addon_id x = a)) as [Hx|Hx].
  - rewrite last_cons.
    destruct (last (List.filter _ notes)); [reflexivity|].
    rewrite Hx. apply lookup_insert_eq.
  - destruct (last (List.filter _ notes)); [reflexivity|].
    apply lookup_insert_ne. exact Hx.
Qed.

Lemma collect_notes_lookup notes a :
  collect_notes notes !! a =
  ca_comments <$> last (List.filter (fun n => bool_decide (ca_addon_id n = a)) notes).
Proof.
  unfold collect_notes. rewrite collect_notes_from.
  destruct (last _); [reflexivity|apply lookup_empty].
Qed.

Lemma notes_query_In d c ca :
  In ca (notes_query d c) <->
  In ca (collection_addons d) /\ ca_collection_id ca = id c /\ ca_comments ca <> None.
Proof.
  unfold notes_query. rewrite filter_In, andb_true_iff, !bool_decide_eq_true.
  tauto.
Qed.

(** C10.  [get_notes] yields once, and then is exhausted.  The value is a
    mapping whose keys are the add-on ids of the collection's membership
    rows with a comment; each value is the comment of such a row for that
    add-on, and it is the row's own comment when no other row of the
    collection names the same add-on.  [edit] advances the generator once
    and hands the mapping to the template. *)
Theorem get_notes_yields_the_mapping d c :
  let rv := collect_notes (notes_query d c) in
  next (get_notes c) d = (Ok rv, Running []) /\
  next (next (get_notes c) d).2 d = (Raise StopIteration, Running []) /\
  (forall a, is_Some (rv !! a) <->
     exists ca, In ca (collection_addons d) /\ ca_collection_id ca = id c /\
                ca_comments ca <> None /\ ca_addon_id ca = a) /\
  (forall a v, rv !! a = Some v ->
     exists ca cmt, In ca (collection_addons d) /\ ca_collection_id ca = id c /\
                    ca_addon_id ca = a /\ ca_comments ca = Some cmt /\ v = Some cmt) /\
  (forall ca,
     In ca (collection_addons d) -> ca_collection_id ca = id c ->
     ca_comments ca <> None ->
     (forall ca', In ca' (collection_addons d) -> ca_collection_id ca' = id c ->
                  ca_addon_id ca' = ca_addon_id ca -> ca' = ca) ->
     rv !! ca_addon_id ca = Some (ca_comments ca)) /\
  (forall w request username slug_,
     db w = d -> method request <> "POST" ->
     exists ctx,
       edit_body c username slug_ w request =
         (Ok (Render "bandwagon/edit.html" ctx), w) /\
       In ("comments", CNotes rv) ctx).
Proof.
  intros rv. subst rv.
  split; [reflexivity|]. split; [reflexivity|].
  assert (Hlast : forall a n,
    last (List.filter (fun n => bool_decide (ca_addon_id n = a)) (notes_query d c))
      = Some n ->
    In n (notes_query d c) /\ ca_addon_id n = a).
  { intros a n Hl. apply last_Some_elem_of, list_elem_of_In, filter_In in Hl.
    rewrite bool_decide_eq_true in Hl. exact Hl. }
  split; [|split; [|split]].
  - intros a. rewrite collect_notes_lookup. split.
    + intros [v Hv]. destruct (last _) as [n|] eqn:Hl; [|discriminate].
      apply Hlast in Hl as [Hin Ha]. apply notes_query_In in Hin.
      exists n. tauto.
    + intros (ca & Hin & Hc & Hcm & Ha).
      destruct (last _) as [n|] eqn:Hl; [eexists; reflexivity|].
      apply last_None in Hl. exfalso.
      assert (Hin' : In ca (List.filter (fun n => bool_decide (ca_addon_id n = a))
                                        (notes_query d c))).
      { apply filter_In. rewrite bool_decide_eq_true, notes_query_In. tauto. }
      rewrite Hl in Hin'. destruct Hin'.
  - intros a v. rewrite collect_notes_lookup.
    destruct (last _) as [n|] eqn:Hl; [|discriminate]. intros [= <-].
    apply Hlast in Hl as [Hin Ha]. apply notes_query_In in Hin as (Hin & Hc & Hcm).
    destruct (ca_comments n) as [cmt|] eqn:Hn; [|contradiction].
    exists n, cmt. rewrite Hn. tauto.
  - intros ca Hin Hc Hcm Huniq. rewrite collect_notes_lookup.
    destruct (last _) as [n|] eqn:Hl.
    + apply Hlast in Hl as [Hn Ha]. apply notes_query_In in Hn as (Hn & Hnc & _).
      rewrite (Huniq n Hn Hnc Ha). reflexivity.
    + apply last_None in Hl. exfalso.
      assert (Hin' : In ca (List.filter
                (fun n => bool_decide (ca_addon_id n = ca_addon_id ca))
                (notes_query d c))).
      { apply filter_In. rewrite bool_decide_eq_true, notes_query_In. tauto. }
      rewrite Hl in Hin'. destruct Hin'.
  - intros w request username slug_ Hd Hm. unfold edit_body.
    rewrite bool_decide_eq_false_2 by exact Hm. rewrite Hd. simpl.
    eexists. split; [reflexivity|]. simpl. tauto.
Qed.

End NotesClaims.

(** ** The claims on the example site *)

Lemma stranger_gets_forbidden_witness :
  edit (H:=Example.site) (H0:=Example.forms) "alice" "best" Example.world
       (Example.request "POST" (Some Example.bob) ∅)
  = (Ok (HttpResponseForbidden (Some not_the_collection)), Example.world).
Proof.
  destruct (@stranger_gets_forbidden Example.site Example.forms Example.world
              (Example.request "POST" (Some Example.bob) ∅)
              Example.bob "alice" "best" Example.best eq_refl eq_refl
              ltac:(discriminate) ltac:(simpl; tauto)) as [Hviews _].
  apply (Hviews eq_refl).
Defined.

(** C4.  The owner's POST to [delete] without the field [sure] ends in an
    unhandled [KeyError]: no redirect is sent (nothing is deleted). *)
Theorem delete_without_sure_raises :
  POST (Example.request "POST" (Some Example.alice) ∅) !! "sure" = None /\
  delete (H:=Example.site) "alice" "best" Example.world
         (Example.request "POST" (Some Example.alice) ∅)
  = (Raise KeyError, Example.world).
Proof.
  split; [reflexivity|].
  apply (delete_without_flag (H:=Example.site) _ _ _ _ Example.best); reflexivity.
Qed.

(** C5.  On two collections the key popular, a declared option and the
    listing's default, gives the order of creation time, newest first; the
    order of subscriber counts is the other one and is what the key
    followers gives. *)
Theorem popular_orders_by_created :
  In "popular" CollectionFilter_opts /\
  ¬ In "followers" CollectionFilter_opts /\
  CollectionFilter_filter (H:=Example.site) [Example.best; Example.fresh] "popular"
    = [Example.fresh; Example.best] /\
  map weekly_subscribers [Example.fresh; Example.best] = [5; 50] /\
  CollectionFilter_filter (H:=Example.site) [Example.best; Example.fresh] "followers"
    = [Example.best; Example.fresh].
Proof.
  split; [simpl; tauto|]. split.
  - simpl. intros [E|[E|[E|[E|[]]]]]; discriminate E.
  - repeat split; vm_compute; reflexivity.
Qed.



Lemma bad_identifier_is_bad_request_witness :
  collection_alter (H:=Example.site) "alice" "best" "add" Example.world
    Example.add_abc
  = (Ok HttpResponseBadRequest, Example.world).
Proof.
  destruct (bad_identifier_is_bad_request (H:=Example.site) Example.world
              Example.add_abc Example.alice eq_refl eq_refl) as [Halter _].
  apply (Halter "alice" "best" "add" Example.best eq_refl eq_refl).
  right. exists "abc". split; reflexivity.
Defined.

Lemma collection_vote_bad_direction_witness :
  collection_vote (H:=Example.site) "alice" "best" "sideways" Example.world
    (Example.request "POST" (Some Example.bob) ∅)
  = (Raise KeyError, Example.world).
Proof.
  apply (collection_vote_bad_direction (H:=Example.site) Example.world
           (Example.request "POST" (Some Example.bob) ∅)
           "alice" "best" "sideways" Example.bob Example.best
           eq_refl eq_refl eq_refl ltac:(discriminate) ltac:(discriminate)).
Defined.

Lemma get_notes_yields_the_mapping_witness :
  (next (get_notes Example.best) Example.tables).1
  = Ok (collect_notes (notes_query Example.tables Example.best)) /\
  collect_notes (notes_query Example.tables Example.best) !! 7
  = Some (Some "blocks ads").
Proof.
  destruct (get_notes_yields_the_mapping (H:=Example.site) (H0:=Example.forms)
              Example.tables Example.best) as (Hnext & _ & _ & _ & Hrow & _).
  split; [rewrite Hnext; reflexivity|].
  apply (Hrow {| ca_collection_id := 10; ca_addon_id := 7;
                 ca_comments := Some "blocks ads"; ca_created := 1 |}).
  - left. reflexivity.
  - reflexivity.
  - discriminate.
  - intros ca' [<-|[<-|[]]] _ Ha; [reflexivity|discriminate Ha].
Defined.

(** * Further properties of the views *)

(** ** Voting: what a vote leaves alone, and voting twice *)

Section VoteExtras.
Context `{Site}.

Lemma get_collection_table w request u username slug_ :
  amo_user request = Some u ->
  ¬ (In slug_ SPECIAL_SLUGS_values /\ user_nickname u = username) ->
  get_collection w request username slug_ =
  get_object_or_404 (by_author_and_slug (db w) username slug_) (collections (db w)).
Proof.
  intros Hu Hno. unfold get_collection. rewrite Hu.
  destruct (bool_decide_reflect (slug_ ∈ SPECIAL_SLUGS_values)) as [Hs|Hs];
    [|reflexivity].
  destruct (bool_decide_reflect (user_nickname u = username)) as [Hn|Hn];
    [|reflexivity].
  exfalso. apply Hno. split; [apply list_elem_of_In; exact Hs|exact Hn].
Qed.

(** A call of [collection_vote], whatever the request, touches nothing
    but the vote table: users, collections, add-ons, memberships and the
    log stay as they are, and the key counter never goes back. *)
Theorem collection_vote_frame username slug_ direction w request :
  let w' := (collection_vote username slug_ direction w request).2 in
  users (db w') = users (db w) /\
  collections (db w') = collections (db w) /\
  addons (db w') = addons (db w) /\
  collection_addons (db w') = collection_addons (db w) /\
  log w' = log w /\
  vote_seq (db w) <= vote_seq (db w').
Proof.
  unfold collection_vote, login_required, collection_vote_body, is_authenticated.
  destruct (amo_user request) as [u|]; [|simpl; repeat split; lia].
  destruct (get_collection w request username slug_) as [c|e];
    [|simpl; repeat split; lia].
  destruct (negb (bool_decide (method request = "POST")));
    [simpl; repeat split; lia|].
  destruct (vote_of_direction direction) as [vote|e]; [|simpl; repeat split; lia].
  unfold get_or_create_vote, get.
  destruct (List.filter _ (votes (db w))) as [|cv [|cv' l]]; simpl;
    unfold save_vote;
    repeat (match goal with
            | |- context [if ?b then _ else _] => destruct b
            end);
    simpl; repeat split; lia.
Qed.

(** A vote of one (user, collection) pair leaves the rows of every other
    pair as they are. *)
Theorem collection_vote_other_pairs w request username slug_ direction u c :
  amo_user request = Some u ->
  get_collection w request username slug_ = Ok c ->
  votes_wf (db w) -> at_most_one_vote (db w) ->
  forall cid uid, ~ (id c = cid /\ user_id u = uid) ->
    vget (db (collection_vote username slug_ direction w request).2) cid uid
    = vget (db w) cid uid.
Proof.
  intros Hu Hc Hwf Hone cid uid Hne.
  set (op := {| op_request := request; op_username := username;
                op_slug := slug_; op_direction := direction |}).
  change (vget (db (step w op)) cid uid = vget (db w) cid uid).
  destruct (action_of w op) as [[[c' u'] vote]|] eqn:Ha.
  - destruct (step_action _ _ _ _ _ Ha Hwf Hone) as (_ & Hoth & _).
    apply action_of_Some in Ha as (Hu' & _ & Hc' & _). simpl in Hu', Hc'.
    assert (u' = u) by congruence. assert (c' = c) by congruence. subst.
    apply Hoth. exact Hne.
  - rewrite (step_no_action _ _ Ha). reflexivity.
Qed.

(** Voting the same direction twice from no vote gives the vote table
    back row for row; only the key counter has moved on. *)
Theorem vote_twice_restores_table w request username slug_ direction u c vote :
  amo_user request = Some u ->
  method request = "POST" ->
  ¬ (In slug_ SPECIAL_SLUGS_values /\ user_nickname u = username) ->
  get_collection w request username slug_ = Ok c ->
  vote_of_direction direction = Ok vote ->
  votes_wf (db w) ->
  vget (db w) (id c) (user_id u) = [] ->
  let w1 := (collection_vote username slug_ direction w request).2 in
  let w2 := (collection_vote username slug_ direction w1 request).2 in
  votes (db w2) = votes (db w) /\ vote_seq (db w2) = vote_seq (db w) + 1.
Proof.
  intros Hu Hm Hns Hc Hv [Hnd Hlt] Hg. simpl.
  rewrite (vote_step_create _ _ _ _ _ _ _ _ Hu Hm Hc Hv Hg). simpl.
  set (d1 := set_votes _ _ _). set (w1 := with_db d1 w).
  assert (Hc1 : get_collection w1 request username slug_ = Ok c).
  { rewrite (get_collection_table _ _ u) by assumption.
    rewrite (get_collection_table _ _ u) in Hc by assumption. exact Hc. }
  assert (Hg1 : vget (db w1) (id c) (user_id u) = [new_vote (db w) c u vote]).
  { unfold w1, d1. simpl. rewrite vget_create, Hg.
    rewrite !bool_decide_eq_true_2 by reflexivity. reflexivity. }
  rewrite (vote_step_cancel _ _ _ _ _ _ _ _ _ Hu Hm Hc1 Hv Hg1 eq_refl). simpl.
  split; [|reflexivity].
  rewrite List.filter_app. simpl.
  rewrite bool_decide_eq_true_2 by reflexivity. simpl. rewrite app_nil_r.
  apply filter_all. intros v Hin. apply negb_true_iff, bool_decide_eq_false.
  rewrite Forall_forall in Hlt. apply list_elem_of_In, Hlt in Hin. lia.
Qed.

End VoteExtras.

Lemma collection_vote_other_pairs_witness :
  vget (db (collection_vote (H:=Example.site) "alice" "best" "down" Fixture.world
              (Example.request "POST" (Some Example.bob) ∅)).2) 12 3
  = vget Fixture.tables 12 3.
Proof.
  apply (collection_vote_other_pairs (H:=Example.site) Fixture.world
           (Example.request "POST" (Some Example.bob) ∅) "alice" "best" "down"
           Example.bob Example.best eq_refl eq_refl).
  - split; [apply (bool_decide_unpack _); vm_compute; exact I|].
    repeat constructor; simpl; lia.
  - intros cid uid. unfold vget. simpl. unfold vote_matches. simpl.
    repeat case_bool_decide; simpl; lia.
  - intros [E _]. discriminate E.
Defined.

Lemma vote_twice_restores_table_witness :
  votes (db (run (H:=Example.site) [Example.vote_up; Example.vote_up] Example.world))
  = [].
Proof.
  apply (vote_twice_restores_table (H:=Example.site) Example.world
           (Example.request "POST" (Some Example.bob) ∅) "alice" "best" "up"
           Example.bob Example.best 1 eq_refl eq_refl).
  - intros [_ E]. discriminate E.
  - reflexivity.
  - reflexivity.
  - split; constructor.
  - reflexivity.
Defined.

(** ** Votes shown on a listing *)

Section GetVotes.
Context `{Site}.

Lemma foldl_insert_lookup {A V} (k : A -> Z) (f : A -> V) (l : list A) :
  forall (m : gmap Z V) a,
    foldl (fun m x => <[k x := f x]> m) m l !! a =
    match last (List.filter (fun x => bool_decide (k x = a)) l) with
    | Some x => Some (f x)
    | None => m !! a
    end.
Proof.
  induction l as [|x l IH]; intros m a; simpl; [reflexivity|].
  rewrite IH. destruct (bool_decide_reflect (k x = a)) as [Hx|Hx].
  - rewrite last_cons.
    destruct (last (List.filter _ l)); [reflexivity|].
    rewrite Hx. apply lookup_insert_eq.
  - destruct (last (List.filter _ l)); [reflexivity|].
    apply lookup_insert_ne. exact Hx.
Qed.

Lemma votes_of_user_on (ids : list Z) uid a (l : list CollectionVote) :
  List.filter (fun v => bool_decide (cv_collection_id v = a))
    (List.filter (fun v => bool_decide (cv_user_id v = uid)
                           && bool_decide (cv_collection_id v ∈ ids)) l)
  = if bool_decide (a ∈ ids) then List.filter (vote_matches a uid) l else [].
Proof.
  induction l as [|v l IH]; simpl; [destruct (bool_decide _); reflexivity|].
  unfold vote_matches at 1.
  destruct (bool_decide_reflect (cv_user_id v = uid)) as [Hu|Hu];
    destruct (bool_decide_reflect (cv_collection_id v ∈ ids)) as [Hi|Hi];
    destruct (bool_decide_reflect (cv_collection_id v = a)) as [Ha|Ha];
    simpl; rewrite ?bool_decide_eq_true_2, ?bool_decide_eq_false_2 by assumption;
    rewrite ?IH; try reflexivity.
  - subst a. rewrite bool_decide_eq_true_2 by assumption. reflexivity.
  - subst a. rewrite bool_decide_eq_false_2 by assumption. reflexivity.
Qed.

(** [get_votes] gives an anonymous visitor the empty mapping.  For a
    logged-in user every entry is a row of the vote table cast by that
    user on the collection whose id is the key, and that collection is
    one of those listed; when each pair has at most one row, the mapping
    has an entry for exactly the listed collections the user voted on. *)
Theorem get_votes_are_the_users d request cs :
  (amo_user request = None -> get_votes d request cs = ∅) /\
  (forall u cid v,
     amo_user request = Some u ->
     get_votes d request cs !! cid = Some v ->
     In v (votes d) /\ cv_user_id v = user_id u /\ cv_collection_id v = cid /\
     In cid (map id cs)) /\
  (forall u cid v,
     amo_user request = Some u -> at_most_one_vote d ->
     (get_votes d request cs !! cid = Some v <->
      In cid (map id cs) /\ vget d cid (user_id u) = [v])).
Proof.
  unfold get_votes. split; [intros ->; reflexivity|]. split.
  - intros u cid v -> Hl. rewrite foldl_insert_lookup, lookup_empty in Hl.
    destruct (last _) as [x|] eqn:Hx; [|discriminate]. injection Hl as ->.
    apply last_Some_elem_of, list_elem_of_In, filter_In in Hx as [Hx Hc].
    apply filter_In in Hx as [Hin Hx]. apply andb_true_iff in Hx as [Hu Hi].
    rewrite bool_decide_eq_true in Hc, Hu, Hi. rewrite list_elem_of_In in Hi.
    rewrite Hc in Hi. auto.
  - intros u cid v -> Hone. rewrite foldl_insert_lookup, lookup_empty.
    rewrite votes_of_user_on. fold (vget d cid (user_id u)).
    specialize (Hone cid (user_id u)).
    destruct (bool_decide_reflect (cid ∈ map id cs)) as [Hi|Hi].
    + rewrite list_elem_of_In in Hi.
      destruct (vget d cid (user_id u)) as [|x [|y l]]; simpl in *; [| |lia].
      * split; [discriminate|intros [_ ?]; discriminate].
      * split; [intros [= ->]; auto|intros [_ [= ->]]; reflexivity].
    + rewrite list_elem_of_In in Hi. simpl.
      split; [discriminate|intros [? _]; contradiction].
Qed.

(** After any sequence of votes from an empty vote table, the entry a
    listing shows a user for a collection carries the value of that
    user's latest non-cancelling vote on it. *)
Theorem get_votes_after_votes w0 ops request cs u cid v :
  votes (db w0) = [] ->
  amo_user request = Some u ->
  get_votes (db (run ops w0)) request cs !! cid = Some v ->
  latest_non_cancelling (history w0 ops cid (user_id u)) = Some (cv_vote v).
Proof.
  intros Hv0 Hu Hl.
  assert (Hwf : votes_wf (db w0)).
  { unfold votes_wf. rewrite Hv0. split; constructor. }
  assert (Hone : at_most_one_vote (db w0)).
  { intros c' u'. unfold vget. rewrite Hv0. simpl. lia. }
  destruct (run_invariant ops w0 Hwf Hone) as (_ & Hone' & Hout).
  unfold get_votes in Hl. rewrite Hu in Hl.
  rewrite foldl_insert_lookup, lookup_empty, votes_of_user_on in Hl.
  fold (vget (db (run ops w0)) cid (user_id u)) in Hl.
  destruct (bool_decide (cid ∈ map id cs)); [|discriminate].
  specialize (Hout cid (user_id u)). unfold pair_outcome in Hout.
  destruct (last (history w0 ops cid (user_id u))) as [[vote b]|] eqn:Hh.
  - destruct b.
    + rewrite Hout in Hl. discriminate.
    + destruct Hout as (cv & Hg & Hvote). rewrite Hg in Hl. simpl in Hl.
      injection Hl as <-. subst vote.
      apply last_Some in Hh as [h ->]. apply latest_non_cancelling_snoc.
  - rewrite Hout in Hl. unfold vget in Hl. rewrite Hv0 in Hl. discriminate.
Qed.

End GetVotes.

Lemma get_votes_are_the_users_witness :
  get_votes Fixture.tables (Example.request "GET" (Some Example.bob) ∅)
            [Example.best; Fixture.secret] !! 10 = Some Fixture.bob_up.
Proof.
  destruct (get_votes_are_the_users Fixture.tables
              (Example.request "GET" (Some Example.bob) ∅)
              [Example.best; Fixture.secret]) as (_ & _ & Hiff).
  apply (Hiff Example.bob 10 Fixture.bob_up eq_refl).
  - intros cid uid. unfold vget. simpl. unfold vote_matches. simpl.
    repeat case_bool_decide; simpl; lia.
  - split; [simpl; tauto|reflexivity].
Defined.

Lemma get_votes_after_votes_witness :
  latest_non_cancelling
    (history (H:=Example.site) Example.world
             [Example.vote_up; Example.vote_down] 10 2) = Some (-1).
Proof.
  apply (get_votes_after_votes (H:=Example.site) Example.world
           [Example.vote_up; Example.vote_down]
           (Example.request "GET" (Some Example.bob) ∅) [Example.best]
           Example.bob 10
           {| cv_id := 1; cv_collection_id := 10; cv_user_id := 2; cv_vote := -1 |}
           eq_refl eq_refl).
  vm_compute. reflexivity.
Defined.

(** ** Listings and pages *)

Section ListingExtras.
Context `{Site}.

Lemma CollectionFilter_filter_In base field c :
  In c (CollectionFilter_filter base field) -> In c base.
Proof.
  unfold CollectionFilter_filter.
  destruct (bool_decide (field = "featured")).
  { intros Hin. apply filter_In in Hin. tauto. }
  destruct (bool_decide (field = "followers")), (bool_decide (field = "rating"));
    apply Permutation_in, merge_sort_Permutation.
Qed.

Lemma CollectionFilter_filter_perm base field :
  field <> "featured" -> CollectionFilter_filter base field ≡ₚ base.
Proof.
  intros Hf. unfold CollectionFilter_filter.
  rewrite bool_decide_eq_false_2 by exact Hf.
  destruct (bool_decide (field = "followers")), (bool_decide (field = "rating"));
    apply merge_sort_Permutation.
Qed.

(** The collection filter never adds a collection to its base set, and
    only the key featured drops any: every other key returns a
    rearrangement of the whole base set. *)
Theorem CollectionFilter_keeps_base base field :
  (forall c, In c (CollectionFilter_filter base field) -> In c base) /\
  (field <> "featured" -> CollectionFilter_filter base field ≡ₚ base).
Proof.
  split; [intros c; apply CollectionFilter_filter_In|].
  apply CollectionFilter_filter_perm.
Qed.

(** The add-on filter, on its own keys: added gives the add-ons in the
    order they joined the collection, popular by weekly downloads, most
    first; both keep every add-on of the base set. *)
Theorem CollectionAddonFilter_orders by_name base :
  (exists l, CollectionAddonFilter_filter by_name base "added" = Some l /\
             l ≡ₚ base /\
             StronglySorted (asc_by (fun r : AddonRow => ca_created r.2)) l) /\
  (exists l, CollectionAddonFilter_filter by_name base "popular" = Some l /\
             l ≡ₚ base /\
             StronglySorted (desc_by (fun r : AddonRow => weekly_downloads r.1)) l) /\
  CollectionAddonFilter_filter by_name base "name" = Some (by_name base).
Proof.
  split; [|split; [|reflexivity]]; eexists; (split; [reflexivity|]).
  - apply (order_by_asc_sorted (fun r : AddonRow => ca_created r.2)).
  - apply (order_by_desc_sorted (fun r : AddonRow => weekly_downloads r.1)).
Qed.

Lemma options_in_opts opts request key default :
  In default opts -> In (options opts request key default) opts.
Proof.
  intros Hd. unfold options. destruct (GET request !! key) as [v|]; [|exact Hd].
  destruct (bool_decide_reflect (v ∈ opts)) as [Hv|Hv]; [|exact Hd].
  apply list_elem_of_In. exact Hv.
Qed.

(** The listing without a base set: the chosen sort field is one of the
    declared options; every collection in the query set is in the table,
    listed, and for the request's application or for none; and unless the
    field is featured no such collection is left out. *)
Theorem collection_listing_shows paginate w request extra :
  let page := collection_listing paginate w request None extra in
  let visible c :=
    listed c = true /\
    (application_id c = Some (APP_id request) \/ application_id c = None) in
  page_collections page = paginate request (qs (page_filter page)) /\
  In (field (page_filter page)) CollectionFilter_opts /\
  (forall c, In c (qs (page_filter page)) ->
     In c (collections (db w)) /\ visible c) /\
  (field (page_filter page) <> "featured" ->
   forall c, In c (collections (db w)) -> visible c ->
     In c (qs (page_filter page))).
Proof.
  cbv zeta. split; [reflexivity|]. split.
  { exact (options_in_opts CollectionFilter_opts request "sort" "popular"
             ltac:(simpl; tauto)). }
  unfold collection_listing, collection_listing_filter, CollectionFilter,
    make_filter. simpl. split.
  - intros c Hin. apply CollectionFilter_filter_In in Hin.
    apply filter_In in Hin as [Hin Happ]. apply filter_In in Hin as [Hin Hl].
    apply orb_true_iff in Happ. rewrite !bool_decide_eq_true in Happ. tauto.
  - intros Hf c Hin [Hl Happ].
    pose proof (CollectionFilter_filter_perm
                  (List.filter (fun c => bool_decide (application_id c = Some (APP_id request))
                                         || bool_decide (application_id c = None))
                               (List.filter listed (collections (db w))))
                  (options CollectionFilter_opts request "sort" "popular") Hf)
      as Hperm.
    eapply Permutation_in; [symmetry; exact Hperm|].
    apply filter_In. split; [apply filter_In; tauto|].
    apply orb_true_iff. rewrite !bool_decide_eq_true. exact Happ.
Qed.


(** A user's page: every collection in the query set is in the table, is
    authored by the user of that name, is for the request's application
    or for none, and is listed unless the visitor is that very user. *)
Theorem user_listing_shows paginate w request username c :
  In c (qs (page_filter (user_listing paginate w request username))) ->
  In c (collections (db w)) /\
  author_username_is (db w) username c = true /\
  (application_id c = Some (APP_id request) \/ application_id c = None) /\
  (listed c = true \/
   exists u, amo_user request = Some u /\ user_username u = username).
Proof.
  unfold user_listing, collection_listing, collection_listing_filter,
    CollectionFilter, make_filter. simpl.
  intros Hin. apply CollectionFilter_filter_In in Hin.
  apply filter_In in Hin as [Hin Happ].
  apply orb_true_iff in Happ. rewrite !bool_decide_eq_true in Happ.
  destruct (amo_user request) as [u|].
  - destruct (bool_decide_reflect (user_username u = username)) as [Hu|Hu]; simpl in Hin.
    + apply filter_In in Hin. split; [tauto|]. split; [tauto|]. split; [tauto|].
      right. exists u. auto.
    + apply filter_In in Hin as [Hin Hl]. apply filter_In in Hin. tauto.
  - simpl in Hin. apply filter_In in Hin as [Hin Hl]. apply filter_In in Hin. tauto.
Qed.

(** The collection page: a collection that is not listed is refused, with
    nothing changed, to an anonymous visitor and to a user who is neither
    its author, nor a contributor, nor an administrator; a listed
    collection gets its page whoever asks. *)
Theorem collection_detail_guard detail_page w request username slug_ c :
  get_collection w request username slug_ = Ok c ->
  (listed c = false -> amo_user request = None ->
     collection_detail detail_page username slug_ w request =
       (Ok (HttpResponseForbidden None), w)) /\
  (forall u, listed c = false -> amo_user request = Some u ->
     user_is_admin u = false -> author_id c <> Some (user_id u) ->
     ¬ In (user_id u) (contributors c) ->
     collection_detail detail_page username slug_ w request =
       (Ok (HttpResponseForbidden None), w)) /\
  (listed c = true ->
     collection_detail detail_page username slug_ w request =
       (detail_page w request c, w)).
Proof.
  intros Hc. unfold collection_detail. rewrite Hc. split; [|split].
  - intros Hl Hu. rewrite Hl. unfold acl.check_collection_ownership.
    rewrite Hu. reflexivity.
  - intros u Hl Hu Ha Ho Hct.
    rewrite Hl, (stranger_is_refused request u c) by assumption. reflexivity.
  - intros Hl. rewrite Hl. reflexivity.
Qed.

End ListingExtras.

Lemma user_listing_shows_witness :
  listed Example.best = true \/
  exists u, amo_user (Example.request "GET" None ∅) = Some u
            /\ user_username u = "alice".
Proof.
  apply (user_listing_shows (H:=Example.site) Fixture.whole_page Fixture.world
           (Example.request "GET" None ∅) "alice" Example.best).
  vm_compute. tauto.
Defined.


Lemma collection_detail_guard_witness :
  collection_detail (H:=Example.site) (fun _ _ _ => Ok HttpResponse)
    "alice" "secret" Fixture.world (Example.request "GET" None ∅)
  = (Ok (HttpResponseForbidden None), Fixture.world).
Proof.
  destruct (collection_detail_guard (H:=Example.site) (fun _ _ _ => Ok HttpResponse)
              Fixture.world (Example.request "GET" None ∅) "alice" "secret"
              Fixture.secret eq_refl) as [Hanon _].
  apply Hanon; reflexivity.
Defined.

(** ** Privacy, contributors and deletion *)

Section OwnerExtras.
Context `{Site} `{Forms}.

Lemma get_one_or_404 {A} (P : A -> bool) (l : list A) (x : A) :
  List.filter P l = [x] -> get_object_or_404 P l = Ok x.
Proof. intros Hf. unfold get_object_or_404. rewrite (get_one _ _ _ Hf). reflexivity. Qed.

Lemma with_listed_back c :
  with_listed (negb (negb (listed c))) (with_listed (negb (listed c)) c) = c.
Proof. destruct c. simpl. rewrite negb_involutive. reflexivity. Qed.


(** A contributor who is neither the author nor an administrator gets
    through to the add-ons editor, and is refused by the other editors, by
    the privacy switch and by [delete]. *)
Theorem contributor_rights w request u username slug_ c :
  amo_user request = Some u ->
  user_is_admin u = false ->
  author_id c <> Some (user_id u) ->
  In (user_id u) (contributors c) ->
  (get_collection w request username slug_ = Ok c ->
     let refused := (Ok (HttpResponseForbidden (Some not_the_collection)), w) in
     edit_addons username slug_ w request = edit_addons_body c username slug_ w request /\
     edit username slug_ w request = refused /\
     edit_contributors username slug_ w request = refused /\
     edit_privacy username slug_ w request = refused) /\
  (get_object_or_404 (by_author_and_slug (db w) username slug_)
                     (collections (db w)) = Ok c ->
     delete username slug_ w request =
       (Ok (HttpResponseForbidden (Some not_the_collection)),
        log_info (LogTryingToDelete (Some u) (id c)) w)).
Proof.
  intros Hu Ha Ho Hc.
  assert (Hyes : acl.check_collection_ownership request c false = true).
  { unfold acl.check_collection_ownership. rewrite Hu, Ha.
    rewrite bool_decide_eq_false_2 by exact Ho.
    rewrite (bool_decide_eq_true_2 (user_id u ∈ contributors c))
      by (apply list_elem_of_In; exact Hc).
    reflexivity. }
  assert (Hno : acl.check_collection_ownership request c true = false).
  { unfold acl.check_collection_ownership. rewrite Hu, Ha.
    rewrite bool_decide_eq_false_2 by exact Ho. reflexivity. }
  split.
  - intros Hres. simpl.
    unfold edit, edit_addons, edit_contributors, edit_privacy, login_required,
      is_authenticated, owner_required.
    rewrite Hu, Hres, Hyes, Hno. repeat split.
  - intros Hres. unfold delete, login_required, is_authenticated, delete_body.
    rewrite Hu, Hres, Hno. reflexivity.
Qed.

(** A confirmed deletion removes the collection and every membership and
    vote row that points to it, and nothing else; asking again for the
    same collection is answered not found. *)
Theorem delete_cascades w request username slug_ c :
  is_authenticated request = true ->
  method request = "POST" ->
  POST request !! "sure" = Some "1" ->
  List.filter (by_author_and_slug (db w) username slug_) (collections (db w)) = [c] ->
  acl.check_collection_ownership request c true = true ->
  let w1 := (delete username slug_ w request).2 in
  (forall x, In x (collections (db w1)) <->
             In x (collections (db w)) /\ id x <> id c) /\
  (forall ca, In ca (collection_addons (db w1)) <->
              In ca (collection_addons (db w)) /\ ca_collection_id ca <> id c) /\
  (forall v, In v (votes (db w1)) <->
             In v (votes (db w)) /\ cv_collection_id v <> id c) /\
  users (db w1) = users (db w) /\ addons (db w1) = addons (db w) /\
  delete username slug_ w1 request = (Raise Http404, w1).
Proof.
  intros Ha Hm Hs Hf Hown. simpl.
  rewrite (delete_confirmed w request username slug_ c Ha (get_one_or_404 _ _ _ Hf)
             Hown Hm Hs). simpl.
  assert (Hmem : forall {A} (k : A -> Z) (l : list A) x,
    In x (List.filter (fun y => negb (bool_decide (k y = id c))) l) <->
    In x l /\ k x <> id c).
  { intros A k l x. rewrite filter_In, negb_true_iff, bool_decide_eq_false.
    reflexivity. }
  split; [intros x; apply Hmem|]. split; [intros x; apply Hmem|].
  split; [intros x; apply Hmem|]. split; [reflexivity|]. split; [reflexivity|].
  unfold delete, login_required, delete_body. rewrite Ha. simpl.
  change (by_author_and_slug (delete_collection c (db w)) username slug_)
    with (by_author_and_slug (db w) username slug_).
  unfold get_object_or_404, get.
  rewrite filter_filter_swap, Hf. simpl.
  rewrite bool_decide_eq_true_2 by reflexivity. reflexivity.
Qed.

(** [delete] changes the tables only on a logged-in POST that carries
    sure=1 for a collection the requester owns; every other request
    leaves them as they are. *)
Theorem delete_needs_confirmation w request username slug_ :
  db (delete username slug_ w request).2 <> db w ->
  is_authenticated request = true /\ method request = "POST" /\
  POST request !! "sure" = Some "1" /\
  exists c,
    get_object_or_404 (by_author_and_slug (db w) username slug_)
                      (collections (db w)) = Ok c /\
    acl.check_collection_ownership request c true = true /\
    db (delete username slug_ w request).2 = delete_collection c (db w).
Proof.
  unfold delete, login_required, delete_body.
  destruct (is_authenticated request); [|simpl; congruence].
  destruct (get_object_or_404 _ _) as [c|e]; [|simpl; congruence].
  destruct (acl.check_collection_ownership request c true) eqn:Hown;
    [|simpl; congruence].
  simpl.
  destruct (bool_decide_reflect (method request = "POST")) as [Hm|Hm];
    [|simpl; congruence].
  unfold getitem. destruct (POST request !! "sure") as [sure|]; [|simpl; congruence].
  destruct (bool_decide_reflect (sure = "1")) as [->|Hne]; [|simpl; congruence].
  simpl. intros _. repeat split; try assumption. exists c. auto.
Qed.

End OwnerExtras.


Lemma contributor_rights_witness :
  edit_privacy (H:=Example.site) "alice" "secret" Fixture.world
    (Example.request "POST" (Some Fixture.carol) ∅)
  = (Ok (HttpResponseForbidden (Some not_the_collection)), Fixture.world).
Proof.
  destruct (contributor_rights (H:=Example.site) (H0:=Example.forms) Fixture.world
              (Example.request "POST" (Some Fixture.carol) ∅)
              Fixture.carol "alice" "secret" Fixture.secret
              eq_refl eq_refl ltac:(discriminate) ltac:(simpl; tauto))
    as [Hviews _].
  apply (Hviews eq_refl).
Defined.

Lemma delete_cascades_witness :
  delete (H:=Example.site) "alice" "secret"
    (delete (H:=Example.site) "alice" "secret" Fixture.world
       (Fixture.sure "1" Example.alice)).2
    (Fixture.sure "1" Example.alice)
  = (Raise Http404,
     (delete (H:=Example.site) "alice" "secret" Fixture.world
        (Fixture.sure "1" Example.alice)).2).
Proof.
  apply (delete_cascades (H:=Example.site) Fixture.world
           (Fixture.sure "1" Example.alice) "alice" "secret" Fixture.secret
           eq_refl eq_refl eq_refl eq_refl eq_refl).
Defined.

Lemma delete_needs_confirmation_witness :
  POST (Fixture.sure "1" Example.alice) !! "sure" = Some "1".
Proof.
  apply (delete_needs_confirmation (H:=Example.site) Fixture.world
           (Fixture.sure "1" Example.alice) "alice" "secret").
  vm_compute. discriminate.
Defined.

(** ** Add-on changes and the add-on list *)

Section AlterExtras.
Context `{Site}.

Lemma unsigned_raises ds e : unsigned ds = Raise e -> e = ValueError.
Proof.
  unfold unsigned. destruct ds; [congruence|]. destruct (digits 0 _); congruence.
Qed.

Lemma python_int_raises s e : python_int s = Raise e -> e = ValueError.
Proof.
  unfold python_int. destruct (code_points _) as [cs|]; [|congruence].
  destruct (strip cs) as [|c ds]; [congruence|].
  destruct (c =? 45).
  { unfold bind. destruct (unsigned ds) as [n|e'] eqn:E; [congruence|].
    intros [= <-]. apply (unsigned_raises ds). exact E. }
  destruct (c =? 43); apply unsigned_raises.
Qed.

Lemma code_points_plain bs :
  Forall (fun b => 0 <= b < 128 /\ ~ (48 <= b <= 57)) bs -> code_points bs = Some bs.
Proof.
  induction 1 as [|b bs [Hb _] _ IH]; [reflexivity|]. simpl.
  destruct (Z.ltb_spec b 128); [|lia]. rewrite IH. reflexivity.
Qed.

Lemma lstrip_In c l : In c (lstrip l) -> In c l.
Proof.
  induction l as [|x l IH]; simpl; [tauto|].
  destruct (is_space x); [auto|]. simpl. tauto.
Qed.

Lemma strip_In c l : In c (strip l) -> In c l.
Proof.
  unfold strip. intros Hin. apply in_rev, lstrip_In in Hin.
  apply in_rev, lstrip_In in Hin. exact Hin.
Qed.

Lemma find_nowhere {A} (f : A -> bool) (l : list A) :
  (forall x, In x l -> f x = false) -> List.find f l = None.
Proof.
  induction l as [|x l IH]; intros Hf; simpl; [reflexivity|].
  rewrite (Hf x) by (left; reflexivity). apply IH. intros y Hy. apply Hf. right. exact Hy.
Qed.

Lemma digit_of_plain b : 0 <= b < 128 -> ~ (48 <= b <= 57) -> digit_of b = None.
Proof.
  intros Hb Hd. unfold digit_of.
  replace (List.find _ decimal_zeros) with (@None Z); [reflexivity|].
  symmetry. apply find_nowhere. intros z Hz.
  apply andb_false_iff.
  destruct (Z.leb_spec z b); [|left; reflexivity]. right.
  destruct (Z.ltb_spec b (z + 10)); [|reflexivity]. exfalso.
  unfold decimal_zeros in Hz. simpl in Hz.
  repeat (destruct Hz as [<-|Hz]; [lia|]). exact Hz.
Qed.

Lemma unsigned_plain ds :
  (forall c, In c ds -> digit_of c = None) -> unsigned ds = Raise ValueError.
Proof.
  intros Hds. unfold unsigned. destruct ds as [|d ds]; [reflexivity|].
  simpl. rewrite (Hds d) by (left; reflexivity). reflexivity.
Qed.

Lemma python_int_plain s : plain_without_digit s -> python_int s = Raise ValueError.
Proof.
  unfold plain_without_digit, python_int. intros Hs.
  rewrite (code_points_plain _ Hs).
  assert (Hnone : forall c, In c (strip (bytes_of s)) -> digit_of c = None).
  { intros c Hc. apply strip_In in Hc. rewrite Forall_forall in Hs.
    apply list_elem_of_In, Hs in Hc as [Hb Hd]. apply digit_of_plain; assumption. }
  destruct (strip (bytes_of s)) as [|c ds]; [reflexivity|].
  assert (Hds : forall x, In x ds -> digit_of x = None)
    by (intros x Hx; apply Hnone; right; exact Hx).
  destruct (c =? 45); [rewrite (unsigned_plain ds Hds); reflexivity|].
  destruct (c =? 43); [apply unsigned_plain; exact Hds|].
  apply unsigned_plain. exact Hnone.
Qed.



End AlterExtras.


(** ** Resolving a collection, and the vote table's keys *)

Section ResolveExtras.
Context `{Site}.

(** [get_collection]: a logged-in user asking for a special slug under
    their own nickname gets their special collection, whatever the table
    holds.  Every other request is answered from the table: a collection
    returned is the single row with that author nickname and slug, and
    when no row matches the view ends not found. *)
Theorem get_collection_resolves w request username slug_ :
  (forall u, amo_user request = Some u ->
     In slug_ SPECIAL_SLUGS_values -> user_nickname u = username ->
     get_collection w request username slug_ =
       Ok (special_collection (db w) u slug_)) /\
  ((amo_user request = None \/
    exists u, amo_user request = Some u /\
              ¬ (In slug_ SPECIAL_SLUGS_values /\ user_nickname u = username)) ->
   (forall c, get_collection w request username slug_ = Ok c ->
      List.filter (by_author_and_slug (db w) username slug_) (collections (db w)) = [c]
      /\ In c (collections (db w)) /\ slug c = slug_
      /\ author_nickname_is (db w) username c = true) /\
   (List.filter (by_author_and_slug (db w) username slug_) (collections (db w)) = [] ->
      get_collection w request username slug_ = Raise Http404)).
Proof.
  split.
  - intros u Hu Hs Hn. unfold get_collection. rewrite Hu.
    rewrite (bool_decide_eq_true_2 (slug_ ∈ SPECIAL_SLUGS_values))
      by (apply list_elem_of_In; exact Hs).
    rewrite bool_decide_eq_true_2 by exact Hn. reflexivity.
  - intros Hwho.
    assert (Htab : get_collection w request username slug_ =
                   get_object_or_404 (by_author_and_slug (db w) username slug_)
                                     (collections (db w))).
    { destruct Hwho as [Hnone|(u & Hu & Hns)].
      - unfold get_collection. rewrite Hnone. reflexivity.
      - apply (get_collection_table _ _ u); assumption. }
    rewrite Htab. unfold get_object_or_404, get. split.
    + intros c.
      destruct (List.filter _ (collections (db w))) as [|x [|y l]] eqn:Hf;
        simpl; intros [= <-].
      split; [reflexivity|].
      assert (Hin : In x (List.filter (by_author_and_slug (db w) username slug_)
                                      (collections (db w)))).
      { rewrite Hf. left. reflexivity. }
      apply filter_In in Hin as [Hin Hp]. unfold by_author_and_slug in Hp.
      apply andb_true_iff in Hp as [Ha Hs]. apply bool_decide_eq_true in Hs. auto.
    + intros ->. reflexivity.
Qed.

(** Whatever the request, a call of [collection_vote] keeps the keys of
    the vote table distinct and below the counter, and keeps every
    (collection, user) pair at one row at most. *)
Theorem collection_vote_keeps_invariant username slug_ direction w request :
  votes_wf (db w) -> at_most_one_vote (db w) ->
  let w' := (collection_vote username slug_ direction w request).2 in
  votes_wf (db w') /\ at_most_one_vote (db w').
Proof.
  intros Hwf Hone.
  apply (step_at_most_one w {| op_request := request; op_username := username;
                               op_slug := slug_; op_direction := direction |}
                          Hwf Hone).
Qed.

End ResolveExtras.

Lemma get_collection_resolves_witness :
  get_collection (H:=Example.site) Example.world
    (Example.request "GET" (Some Example.bob) ∅) "bob" "favorites"
  = Ok (special_collection (Site:=Example.site) Example.tables Example.bob "favorites").
Proof.
  destruct (get_collection_resolves (H:=Example.site) Example.world
              (Example.request "GET" (Some Example.bob) ∅) "bob" "favorites")
    as [Hspecial _].
  apply (Hspecial Example.bob eq_refl); [simpl; tauto|reflexivity].
Defined.

Lemma collection_vote_keeps_invariant_witness :
  at_most_one_vote
    (db (collection_vote (H:=Example.site) "alice" "best" "down" Fixture.world
           (Example.request "POST" (Some Example.bob) ∅)).2).
Proof.
  apply (collection_vote_keeps_invariant (H:=Example.site) "alice" "best" "down"
           Fixture.world (Example.request "POST" (Some Example.bob) ∅)).
  - split; [apply (bool_decide_unpack _); vm_compute; exact I|].
    repeat constructor; simpl; lia.
  - intros cid uid. unfold vget. simpl. unfold vote_matches. simpl.
    repeat case_bool_decide; simpl; lia.
Defined.
